(** * Milan housing dashboard: column detection, sidebar filters, KPI metrics

    A shallow embedding of [app.py], the Streamlit script of the dashboard,
    and the properties of its column resolver ([pick_col]), its sidebar
    filter pipeline and its KPI helpers ([safe_mean], [safe_median]).

    Modelling conventions.
    - A pandas [DataFrame] is a list of pairwise different column names, as
      [read_excel] returns them, and a list of rows; a cell holds a number,
      a text or is missing (NaN / None); a row shorter than the header is
      missing in the columns it lacks.
    - The number in a cell is the exact rational [Q] that its int or float
      denotes.  Comparisons, [min]/[max], [int()] and the decimal rendering
      of a value are those of Python on the same value.
    - A Python float that the script computes or reads (a mean, a median, a
      metric) is a [pyfloat]: a finite value, a signed zero, an infinity or
      NaN.
    - The computations that the libraries carry out in floating point or on
      text are parameters: [pandas.to_numeric] on a text cell,
      [Series.mean], [Series.median], [Series.value_counts(bins=...)], and
      Python's [float] on a string.
    - A Python exception is an [outcome]; every [st.*] call of the script is
      an [element] appended to the page, in program order, unless the call
      raises. *)

From Stdlib Require Import ZArith QArith Qabs String Ascii List Bool Lia.
From stdpp Require Import base list strings.

Open Scope string_scope.
Open Scope Z_scope.

(** ** Python outcomes *)

Inductive exn : Type :=
| KeyError (key : string)
| TypeError
| ValueError
| AttributeError
| IOError
| OverflowError
| StreamlitAPIException.

Inductive outcome (A : Type) : Type :=
| Done (a : A)
| Stopped
| Raised (e : exn).
Arguments Done {A} a.
Arguments Stopped {A}.
Arguments Raised {A} e.

Definition obind {A B : Type} (m : outcome A) (f : A -> outcome B) : outcome B :=
  match m with
  | Done a => f a
  | Stopped => Stopped
  | Raised e => Raised e
  end.

(** ** Cells *)

Inductive cell : Type :=
| Num (q : Q)
| Text (s : string)
| Missing.

(** Python's [==] on cell values, as the hash tables behind [unique] and
    [isin] see it; like pandas, they take a missing value equal to itself. *)
Definition cell_eqb (a b : cell) : bool :=
  match a, b with
  | Num x, Num y => Qeq_bool x y
  | Text s, Text t => String.eqb s t
  | Missing, Missing => true
  | _, _ => false
  end.

Definition Qlt_bool (x y : Q) : bool := negb (Qle_bool y x).

(** Python's [<], which [sorted] uses: numbers by value, texts by code
    point, and a [TypeError] between a text and a number.  (The script sorts
    after [dropna], so no missing value reaches it; NaN compares false.) *)
Definition cell_lt (a b : cell) : outcome bool :=
  match a, b with
  | Num x, Num y => Done (Qlt_bool x y)
  | Text s, Text t => Done (String.ltb s t)
  | Missing, Missing | Missing, Num _ | Num _, Missing => Done false
  | _, _ => Raised TypeError
  end.

Fixpoint sorted_insert (x : cell) (l : list cell) : outcome (list cell) :=
  match l with
  | [] => Done [x]
  | y :: l' =>
      obind (cell_lt x y) (fun lt =>
        if lt then Done (x :: y :: l')
        else obind (sorted_insert x l') (fun r => Done (y :: r)))
  end.

(** [sorted(xs)] *)
Fixpoint sorted (xs : list cell) : outcome (list cell) :=
  match xs with
  | [] => Done []
  | x :: xs' => obind (sorted xs') (sorted_insert x)
  end.

(** ** Floats *)

(** A Python float: a finite value, negative zero, an infinity or NaN.
    [Finite 0] is the positive zero. *)
Inductive pyfloat : Type :=
| Finite (q : Q)
| NegZero
| PosInf
| NegInf
| NaN.

(** [f > bound] between a float and a number; NaN compares false. *)
Definition float_gt (f : pyfloat) (bound : Q) : bool :=
  match f with
  | Finite q => Qlt_bool bound q
  | NegZero => Qlt_bool bound 0
  | PosInf => true
  | NegInf | NaN => false
  end.

(** ** Number formatting: the format specs [,.0f], [.3f], [.4f] and [,] *)

Module PyFormat.

Definition digit (n : Z) : ascii := ascii_of_nat (48 + Z.to_nat n).

Fixpoint digits_fuel (fuel : nat) (n : Z) (acc : list ascii) : list ascii :=
  match fuel with
  | O => acc
  | S fuel' =>
      let acc' := digit (n mod 10) :: acc in
      if n / 10 =? 0 then acc' else digits_fuel fuel' (n / 10) acc'
  end.

(** The decimal digits of a natural number, most significant first. *)
Definition digits (n : Z) : list ascii :=
  digits_fuel (S (Z.to_nat (Z.log2 n))) n [].

(** The last [d] decimal digits of [n], zero-padded. *)
Fixpoint frac_digits (d : nat) (n : Z) (acc : list ascii) : list ascii :=
  match d with
  | O => acc
  | S d' => frac_digits d' (n / 10) (digit (n mod 10) :: acc)
  end.

(** A comma before every group of three digits, counted from the right. *)
Fixpoint group3 (ds : list ascii) : list ascii :=
  match ds with
  | [] => []
  | c :: ds' =>
      c :: (if (0 <? length ds')%nat && (length ds' mod 3 =? 0)%nat
            then "," %char :: group3 ds'
            else group3 ds')
  end.

(** Round half to even, on a non-negative rational. *)
Definition round_half_even (q : Q) : Z :=
  let n := Qnum q in
  let d := Z.pos (Qden q) in
  let f := n / d in
  let r := n mod d in
  match 2 * r ?= d with
  | Lt => f
  | Gt => f + 1
  | Eq => if Z.even f then f else f + 1
  end.

(** [format(q, ".{d}f")], or [",.{d}f"] when [commas] is set. *)
Definition format_f (commas : bool) (d : nat) (q : Q) : string :=
  let scaled := round_half_even (Qabs q * inject_Z (10 ^ Z.of_nat d)) in
  let whole := digits (scaled / 10 ^ Z.of_nat d) in
  let whole := if commas then group3 whole else whole in
  let sign := if Qlt_bool q 0 then ["-" %char] else [] in
  let frac := match d with
              | O => []
              | S _ => "." %char :: frac_digits d (scaled mod 10 ^ Z.of_nat d) []
              end in
  string_of_list_ascii (sign ++ whole ++ frac).

(** The same on a float: zero keeps its sign, and an infinity or NaN is
    spelled out whatever the precision. *)
Definition format_float (commas : bool) (d : nat) (f : pyfloat) : string :=
  match f with
  | Finite q => format_f commas d q
  | NegZero => "-" ++ format_f commas d 0
  | PosInf => "inf"
  | NegInf => "-inf"
  | NaN => "nan"
  end.

(** [format(n, ",")] on a length. *)
Definition format_int_commas (n : nat) : string :=
  string_of_list_ascii (group3 (digits (Z.of_nat n))).

End PyFormat.

(** ** Data frames and series *)

(** Column names that are pairwise different. *)
Fixpoint distinct (names : list string) : bool :=
  match names with
  | [] => true
  | c :: names' => negb (existsb (String.eqb c) names') && distinct names'
  end.

(** A frame as [read_excel] returns it: no two columns share a name. *)
Record DataFrame : Type := {
  columns : list string;
  rows : list (list cell);
  columns_distinct : distinct columns = true
}.

(** [c in df.columns] *)
Definition has_column (df : DataFrame) (c : string) : bool :=
  existsb (String.eqb c) (columns df).

Fixpoint column_index (c : string) (cols : list string) : option nat :=
  match cols with
  | [] => None
  | c' :: cols' =>
      if String.eqb c c' then Some O
      else match column_index c cols' with
           | Some i => Some (S i)
           | None => None
           end
  end.

Definition cell_at (i : nat) (r : list cell) : cell := default Missing (r !! i).

(** [df[col]]: the column as a series, a [KeyError] when there is none. *)
Definition getitem (df : DataFrame) (c : string) : outcome (list cell) :=
  match column_index c (columns df) with
  | Some i => Done (map (cell_at i) (rows df))
  | None => Raised (KeyError c)
  end.

(** The value a row holds in column [c]. *)
Definition row_value (df : DataFrame) (c : string) (r : list cell) : cell :=
  match column_index c (columns df) with
  | Some i => cell_at i r
  | None => Missing
  end.

Fixpoint mask_rows {A : Type} (mask : list bool) (rs : list A) : list A :=
  match mask, rs with
  | b :: mask', r :: rs' =>
      if b then r :: mask_rows mask' rs' else mask_rows mask' rs'
  | _, _ => []
  end.

(** [df[mask]]: the rows at which the boolean series holds. *)
Definition getitem_mask (df : DataFrame) (mask : list bool) : DataFrame :=
  {| columns := columns df;
     rows := mask_rows mask (rows df);
     columns_distinct := columns_distinct df |}.

(** [s.dropna()] on a series of cells. *)
Definition dropna_cells (s : list cell) : list cell :=
  List.filter (fun c => match c with Missing => false | _ => true end) s.

(** [s.unique()]: first occurrences, in order. *)
Fixpoint unique (s : list cell) : list cell :=
  match s with
  | [] => []
  | c :: s' => c :: List.filter (fun c' => negb (cell_eqb c c')) (unique s')
  end.

(** [s.isin(values)] *)
Definition isin (s : list cell) (values : list cell) : list bool :=
  map (fun c => existsb (cell_eqb c) values) s.

(** [s.dropna()] on a float series: [None] is NaN. *)
Definition dropna (s : list (option Q)) : list Q := omap id s.

(** [s.between(lo, hi)], both ends included; NaN is in no range. *)
Definition between (s : list (option Q)) (lo hi : Q) : list bool :=
  map (fun x => match x with
                | Some q => Qle_bool lo q && Qle_bool q hi
                | None => false
                end) s.

Definition Qmin_b (x y : Q) : Q := if Qle_bool x y then x else y.
Definition Qmax_b (x y : Q) : Q := if Qle_bool x y then y else x.

(** [v.min()] and [v.max()] of a non-empty series [x :: v]. *)
Definition series_min (x : Q) (v : list Q) : Q := fold_left Qmin_b v x.
Definition series_max (x : Q) (v : list Q) : Q := fold_left Qmax_b v x.

(** [int(q)]: truncation towards zero. *)
Definition py_int (q : Q) : Z := Z.quot (Qnum q) (Z.pos (Qden q)).

(** Python's truth value of [col]: [None] and the empty string are false. *)
Definition truthy (col : option string) : option string :=
  match col with
  | Some c => if String.eqb c EmptyString then None else Some c
  | None => None
  end.

Definition em_dash : string := "—".

(** [pick_col(df, candidates)] *)
Fixpoint pick_col (df : DataFrame) (candidates : list string) : option string :=
  match candidates with
  | [] => None
  | c :: candidates' =>
      if has_column df c then Some c else pick_col df candidates'
  end.

(** The roles of the resolver and their candidate names, in priority order. *)
Inductive role : Type :=
| area | bedrooms | energy | transport | price | price_per_area | ln_price.

Definition candidates (r : role) : list string :=
  match r with
  | area => ["Area"; "area"; "neighborhood"; "Neighbourhood"; "quartiere"; "Quartiere"]
  | bedrooms => ["Bedroom"; "Bedrooms"; "bedroom"; "bedrooms"; "beds"]
  | energy => ["Energy_score"; "energy_score"; "energy"; "EnergyScore"; "energyScore"]
  | transport => ["transport"; "Transport"; "transport_score"; "Transport_score"]
  | price => ["price"; "Price"]
  | price_per_area => ["priceperm"; "price_per_m2"; "price_per_sqm"; "PricePerm"; "price_per_meter"]
  | ln_price => ["ln_price"; "lnprice"; "Ln_price"]
  end.

Definition resolve (df : DataFrame) (r : role) : option string :=
  pick_col df (candidates r).

(** ** The page: Streamlit elements, in the order the script emits them *)

(** The counts of [value_counts(bins=n).sort_index()]: the bins in
    ascending order, each with its two edges and the number of values it
    holds. *)
Definition histogram : Type := list (Q * Q * nat).

Inductive container : Type :=
| Main | Sidebar
| TabExplore | TabModel | TabAbout
| Kpi (i : nat) | ColLeft | ColRight
| MetricCol (i : nat) | ShapTab (i : nat).

Inductive widget : Type :=
| PageConfig (page_title layout : string)
| Title (s : string)
| Caption (s : string)
| Header (s : string)
| Subheader (s : string)
| Markdown (s : string)
| ErrorBox (s : string)
| WarningBox (s : string)
| ExceptionWarning (s : string) (e : exn)
| InfoBox (s : string)
| SuccessBox (s : string)
| Metric (label value : string)
| Multiselect (label : string) (options selected : list cell)
| SliderInt (label : string) (lo hi : Z) (value : Z * Z)
| SliderFloat (label : string) (lo hi : Q) (value : Q * Q)
| DownloadButton (label : string) (data : DataFrame) (file_name mime : string)
| Tabs (names : list string)
| Columns (n : nat)
| Dataframe (df : DataFrame)
| Html (doc : string) (height : Z) (scrolling : bool)
| BarChart (data : histogram)
| Image (path : string).

Definition element : Type := container * widget.

(** A run of (a part of) the script: the elements it put on the page and
    how it ended. *)
Definition Script (A : Type) : Type := list element * outcome A.

Definition ret {A : Type} (a : A) : Script A := ([], Done a).

Definition bind {A B : Type} (m : Script A) (f : A -> Script B) : Script B :=
  match m with
  | (page, Done a) => let (page', r) := f a in ((page ++ page')%list, r)
  | (page, Stopped) => (page, Stopped)
  | (page, Raised e) => (page, Raised e)
  end.

Definition lift {A : Type} (o : outcome A) : Script A := ([], o).

Definition emit (c : container) (w : widget) : Script unit := ([(c, w)], Done tt).

(** [st.stop()] *)
Definition st_stop : Script unit := ([], Stopped).

(** [try: body / except Exception as e: handler(e)] *)
Definition try_except {A : Type} (body : Script A) (handler : exn -> Script A)
  : Script A :=
  match body with
  | (page, Raised e) => let (page', r) := handler e in ((page ++ page')%list, r)
  | _ => body
  end.

Notation "x <- m ;; k" := (bind m (fun x => k))
  (at level 100, m at next level, right associativity).
Notation "m ;; k" := (bind m (fun _ => k))
  (at level 100, right associativity).

Definition page {A : Type} (m : Script A) : list element := fst m.
Definition result {A : Type} (m : Script A) : outcome A := snd m.

(** The visitor: what each input widget returns, given its label, its
    bounds or options, and its default. *)
Record user : Type := {
  multiselect_state : string -> list cell -> list cell -> list cell;
  slider_int_state : string -> Z -> Z -> Z * Z -> Z * Z;
  slider_float_state : string -> Q -> Q -> Q * Q -> Q * Q
}.

(** A visitor who leaves every widget at its default. *)
Definition untouched : user :=
  {| multiselect_state := fun _ _ d => d;
     slider_int_state := fun _ _ _ d => d;
     slider_float_state := fun _ _ _ d => d |}.

Definition st_multiselect (u : user) (c : container) (label : string)
    (options default_ : list cell) : Script (list cell) :=
  let selected := multiselect_state u label options default_ in
  ([(c, Multiselect label options selected)], Done selected).

(** The integers a slider takes as bounds: those JavaScript holds exactly,
    from [-(2^53 - 1)] to [2^53 - 1]. *)
Definition js_safe_integer (n : Z) : bool :=
  (- (2 ^ 53 - 1) <=? n) && (n <=? 2 ^ 53 - 1).

(** [st.slider] on integer bounds: it raises on a bound that is no safe
    integer, before it shows anything. *)
Definition st_slider_int (u : user) (c : container) (label : string)
    (lo hi : Z) (value : Z * Z) : Script (Z * Z) :=
  if js_safe_integer lo && js_safe_integer hi then
    let chosen := slider_int_state u label lo hi value in
    ([(c, SliderInt label lo hi chosen)], Done chosen)
  else ([], Raised StreamlitAPIException).

Definition st_slider_float (u : user) (c : container) (label : string)
    (lo hi : Q) (value : Q * Q) : Script (Q * Q) :=
  let chosen := slider_float_state u label lo hi value in
  ([(c, SliderFloat label lo hi chosen)], Done chosen).

(** ** Files and the metrics document *)

Inductive file (A : Type) : Type :=
| Absent
| Unreadable (e : exn)
| Holds (content : A).
Arguments Absent {A}.
Arguments Unreadable {A} e.
Arguments Holds {A} content.

(** [exists(path)] *)
Definition path_exists {A : Type} (f : file A) : bool :=
  match f with
  | Absent => false
  | _ => true
  end.

(** Opening and reading (or parsing) a file. *)
Definition read_file {A : Type} (f : file A) : outcome A :=
  match f with
  | Holds a => Done a
  | Unreadable e => Raised e
  | Absent => Raised IOError
  end.

#[warnings="-register-all"]
Inductive json : Type :=
| JNull
| JBool (b : bool)
| JInt (n : Z)
| JFloat (f : pyfloat)
| JString (s : string)
| JArray (items : list json)
| JObject (members : list (string * json)).

Fixpoint assoc_last (key : string) (members : list (string * json)) (found : option json)
  : option json :=
  match members with
  | [] => found
  | (k, v) :: members' =>
      assoc_last key members' (if String.eqb key k then Some v else found)
  end.

(** [metrics.get(key, 0)]: only a JSON object has [get]; of a repeated key
    the parser keeps the last value. *)
Definition dict_get (metrics : json) (key : string) : outcome json :=
  match metrics with
  | JObject members => Done (default (JInt 0) (assoc_last key members None))
  | _ => Raised AttributeError
  end.

(** [float(n)] on an integer: the nearest binary64 number, a tie going to
    the even significand, and an [OverflowError] when that number would be
    [2^1024] or more. *)
Definition float_of_int (n : Z) : outcome pyfloat :=
  let a := Z.abs n in
  let e := Z.max 0 (Z.log2 a - 52) in
  let r := PyFormat.round_half_even (a # Z.to_pos (2 ^ e)) * 2 ^ e in
  if 2 ^ 1024 <=? r then Raised OverflowError
  else Done (Finite (inject_Z (Z.sgn n * r))).

(** [os.path.join(base, name)] for a relative [name]. *)
Definition path_join (base name : string) : string :=
  match rev (list_ascii_of_string base) with
  | [] => name
  | c :: _ => if Ascii.eqb c "/" then base ++ name else base ++ "/" ++ name
  end.

Section Coercion.

(** What [pandas.to_numeric(..., errors="coerce")] makes of a text cell:
    its number, or nothing when it does not read as one. *)
Variable to_numeric_text : string -> option Q.

Definition coerce (c : cell) : option Q :=
  match c with
  | Num q => Some q
  | Text s => to_numeric_text s
  | Missing => None
  end.

(** [to_num(s)] *)
Definition to_num (s : list cell) : list (option Q) := map coerce s.

(** [v.mean()] and [v.median()] on a series of numbers that is not empty:
    what pandas computes in floating point, given the values. *)
Variable series_mean : list Q -> pyfloat.
Variable series_median : list Q -> pyfloat.

(** [v.value_counts(bins=n).sort_index()]: the histogram, or the exception
    that pandas raises (a [ValueError] when two edges of the bins come out
    equal). *)
Variable value_counts : list Q -> nat -> outcome histogram.

(** [safe_mean(df, col)] *)
Definition safe_mean (df : DataFrame) (col : option string) : outcome string :=
  match truthy col with
  | Some c =>
      if has_column df c then
        obind (getitem df c) (fun s =>
          let v := dropna (to_num s) in
          match v with
          | _ :: _ =>
              Done (if float_gt (series_mean v) 10
                    then PyFormat.format_float true 0 (series_mean v)
                    else PyFormat.format_float false 3 (series_mean v))
          | [] => Done em_dash
          end)
      else Done em_dash
  | None => Done em_dash
  end.

(** [safe_median(df, col)] *)
Definition safe_median (df : DataFrame) (col : option string) : outcome string :=
  match truthy col with
  | Some c =>
      if has_column df c then
        obind (getitem df c) (fun s =>
          let v := dropna (to_num s) in
          match v with
          | _ :: _ =>
              Done (if float_gt (series_median v) 10
                    then PyFormat.format_float true 0 (series_median v)
                    else PyFormat.format_float false 3 (series_median v))
          | [] => Done em_dash
          end)
      else Done em_dash
  | None => Done em_dash
  end.

(** The numbers of column [c]: each row's value, coerced, the missing
    ones dropped. *)
Definition numeric_values (df : DataFrame) (c : string) : list Q :=
  omap (fun r => coerce (row_value df c r)) (rows df).

(** The rows whose value in column [c] coerces to a number within
    [lo, hi], both ends included. *)
Definition in_range (lo hi : Q) (x : option Q) : bool :=
  match x with
  | Some q => Qle_bool lo q && Qle_bool q hi
  | None => false
  end.

Definition rows_in_range (df : DataFrame) (c : string) (lo hi : Q)
  : list (list cell) :=
  List.filter (fun r => in_range lo hi (coerce (row_value df c r))) (rows df).

(** *** Sidebar filters *)

(** The area block: options, multiselect, membership filter. *)
Definition area_block (u : user) (area_col : option string) (filtered : DataFrame)
  : Script DataFrame :=
  match truthy area_col with
  | Some c =>
      s <- lift (getitem filtered c);;
      areas <- lift (sorted (unique (dropna_cells s)));;
      let default_areas :=
        if (10 <? length areas)%nat then take 10 areas else areas in
      selected_areas <- st_multiselect u Sidebar "Area" areas default_areas;;
      match selected_areas with
      | _ :: _ =>
          s' <- lift (getitem filtered c);;
          ret (getitem_mask filtered (isin s' selected_areas))
      | [] => ret filtered
      end
  | None => ret filtered
  end.

(** The bedroom block: integer bounds, integer slider, range filter. *)
Definition bedroom_block (u : user) (bed_col : option string) (filtered : DataFrame)
  : Script DataFrame :=
  match truthy bed_col with
  | Some c =>
      s <- lift (getitem filtered c);;
      match dropna (to_num s) with
      | x :: b =>
          let bmin := py_int (series_min x b) in
          let bmax := py_int (series_max x b) in
          if negb (bmin =? bmax) then
            br <- st_slider_int u Sidebar "Bedroom range" bmin bmax (bmin, bmax);;
            s' <- lift (getitem filtered c);;
            ret (getitem_mask filtered
                   (between (to_num s') (inject_Z (fst br)) (inject_Z (snd br))))
          else ret filtered
      | [] => ret filtered
      end
  | None => ret filtered
  end.

(** The energy and the transport block differ in the column and in the
    label of the slider only. *)
Definition float_range_block (label : string) (u : user) (col : option string)
    (filtered : DataFrame) : Script DataFrame :=
  match truthy col with
  | Some c =>
      s <- lift (getitem filtered c);;
      match dropna (to_num s) with
      | x :: e =>
          let emin := series_min x e in
          let emax := series_max x e in
          if negb (Qeq_bool emin emax) then
            er <- st_slider_float u Sidebar label emin emax (emin, emax);;
            s' <- lift (getitem filtered c);;
            ret (getitem_mask filtered (between (to_num s') (fst er) (snd er)))
          else ret filtered
      | [] => ret filtered
      end
  | None => ret filtered
  end.

Definition energy_block : user -> option string -> DataFrame -> Script DataFrame :=
  float_range_block "Energy_score range".

Definition transport_block : user -> option string -> DataFrame -> Script DataFrame :=
  float_range_block "Transport range (optional)".

(** The column bindings of the sidebar. *)
Record bindings : Type := {
  area_col : option string;
  bed_col : option string;
  energy_col : option string;
  transport_col : option string
}.

Definition detect (df : DataFrame) : bindings :=
  {| area_col := resolve df area;
     bed_col := resolve df bedrooms;
     energy_col := resolve df energy;
     transport_col := resolve df transport |}.

(** The sidebar, from [filtered = df.copy()] to the last range filter. *)
Definition sidebar_filters (u : user) (b : bindings) (df : DataFrame)
  : Script DataFrame :=
  emit Sidebar (Header "Filters");;
  let filtered := df in
  filtered <- area_block u (area_col b) filtered;;
  filtered <- bedroom_block u (bed_col b) filtered;;
  filtered <- energy_block u (energy_col b) filtered;;
  filtered <- transport_block u (transport_col b) filtered;;
  ret filtered.

(** *** The script *)

(** What Python's [float] makes of a string: its float, or nothing when
    the string does not read as one. *)
Variable float_of_text : string -> option pyfloat.

(** [float(x)] on a value that [json.load] returned. *)
Definition py_float (x : json) : outcome pyfloat :=
  match x with
  | JInt n => float_of_int n
  | JFloat f => Done f
  | JBool b => Done (Finite (if b then 1 else 0))
  | JString t =>
      match float_of_text t with
      | Some f => Done f
      | None => Raised ValueError
      end
  | JNull | JArray _ | JObject _ => Raised TypeError
  end.

(** The files of an installation and the visitor.  An image file holds
    nothing the script looks at: it is there and decodes, or reading it
    raises. *)
Record env : Type := {
  base_dir : string;
  data_file : file DataFrame;
  map_file : file string;
  metrics_file : file json;
  shap_summary_bar_file : file unit;
  shap_beeswarm_file : file unit;
  shap_dep_transport_file : file unit;
  visitor : user
}.

Definition DATA_PATH (e : env) : string := path_join (base_dir e) "data_final.xlsx".
Definition SHAP_SUMMARY_BAR_PNG (e : env) : string :=
  path_join (base_dir e) "shap_summary_bar.png".
Definition SHAP_BEESWARM_PNG (e : env) : string :=
  path_join (base_dir e) "shap_beeswarm.png".
Definition SHAP_DEP_TRANSPORT_PNG (e : env) : string :=
  path_join (base_dir e) "shap_dependence_transport.png".

(** [load_data(path)] *)
Definition load_data (f : file DataFrame) : Script DataFrame := lift (read_file f).

Definition decimal (n : nat) : string :=
  string_of_list_ascii (PyFormat.digits (Z.of_nat n)).

(** [df.head(50)] *)
Definition head50 (df : DataFrame) : DataFrame :=
  {| columns := columns df;
   rows := take 50 (rows df);
   columns_distinct := columns_distinct df |}.

(** The three metric KPIs when there is nothing to show. *)
Definition no_metrics : Script unit :=
  emit (MetricCol 1) (Metric "RMSE" em_dash);;
  emit (MetricCol 2) (Metric "MAE" em_dash);;
  emit (MetricCol 3) (Metric "R²" em_dash).

(** The model-metrics block of the Model tab. *)
Definition metrics_block (f : file json) : Script unit :=
  if path_exists f then
    try_except
      (metrics <- lift (read_file f);;
       rmse <- lift (obind (dict_get metrics "rmse") py_float);;
       mae <- lift (obind (dict_get metrics "mae") py_float);;
       r2 <- lift (obind (dict_get metrics "r2") py_float);;
       emit (MetricCol 1) (Metric "RMSE" (PyFormat.format_float false 4 rmse));;
       emit (MetricCol 2) (Metric "MAE" (PyFormat.format_float false 4 mae));;
       emit (MetricCol 3) (Metric "R²" (PyFormat.format_float false 4 r2));;
       emit TabModel (Caption "Metrics loaded from model_metrics.json"))
      (fun e =>
         no_metrics;;
         emit TabModel (ExceptionWarning "Couldn't read model_metrics.json: " e))
  else
    (no_metrics;;
     emit TabModel
       (InfoBox "Create model_metrics.json in your notebook to show metrics here.")).

(** One SHAP tab: [st.image] reads and decodes the file, and raises when
    it cannot. *)
Definition shap_image (i : nat) (f : file unit) (path name : string) : Script unit :=
  if path_exists f then
    lift (read_file f);;
    emit (ShapTab i) (Image path)
  else emit (ShapTab i) (InfoBox ("Missing: " ++ name)).

Definition explore_tab (e : env) (df filtered : DataFrame)
    (price_col priceperm_col ln_price_col : option string) : Script unit :=
  emit TabExplore
    (SuccessBox ("✅ Dataset loaded | Rows: "
                 ++ PyFormat.format_int_commas (length (rows df))
                 ++ " | Columns: " ++ decimal (length (columns df))));;
  emit TabExplore (Columns 4);;
  emit (Kpi 1) (Metric "Listings (filtered)"
                  (PyFormat.format_int_commas (length (rows filtered))));;
  k2 <- lift (safe_median filtered price_col);;
  emit (Kpi 2) (Metric "Median price" k2);;
  k3 <- lift (safe_median filtered priceperm_col);;
  emit (Kpi 3) (Metric "Median price / m²" k3);;
  k4 <- lift (safe_mean filtered ln_price_col);;
  emit (Kpi 4) (Metric "Mean ln_price" k4);;
  emit TabExplore (Markdown "### Preview & Map");;
  emit TabExplore (Columns 2);;
  emit ColLeft (Subheader "📄 Dataset preview");;
  emit ColLeft (Dataframe (head50 filtered));;
  emit ColRight (Subheader "🗺️ Milan map (saved Folium HTML)");;
  (if path_exists (map_file e) then
     map_html <- lift (read_file (map_file e));;
     emit ColRight (Html map_html 560 true);;
     emit ColRight (Caption "Map rendered from milan_area_map_lnprice.html")
   else
     emit ColRight (WarningBox "Map file not found: milan_area_map_lnprice.html"));;
  match truthy price_col with
  | Some c =>
      if has_column filtered c then
        emit TabExplore (Markdown "### Price distribution (filtered)");;
        s <- lift (getitem filtered c);;
        let hist_data := dropna (to_num s) in
        if (0 <? length hist_data)%nat
        then
          counts <- lift (value_counts hist_data 25%nat);;
          emit TabExplore (BarChart counts)
        else emit TabExplore (InfoBox "No numeric price values to plot.")
      else ret tt
  | None => ret tt
  end.

Definition model_tab (e : env) : Script unit :=
  emit TabModel (Subheader "🤖 Model results (XGBoost)");;
  emit TabModel (Columns 3);;
  metrics_block (metrics_file e);;
  emit TabModel (Markdown "---");;
  emit TabModel (Subheader "🔎 SHAP (Explainability)");;
  emit TabModel (Tabs ["Summary bar"; "Beeswarm"; "Dependence (transport)"]);;
  shap_image 0 (shap_summary_bar_file e) (SHAP_SUMMARY_BAR_PNG e) "shap_summary_bar.png";;
  shap_image 1 (shap_beeswarm_file e) (SHAP_BEESWARM_PNG e) "shap_beeswarm.png";;
  shap_image 2 (shap_dep_transport_file e) (SHAP_DEP_TRANSPORT_PNG e)
    "shap_dependence_transport.png".

Definition about_text : string :=
  "### What is this?
A compact dashboard to explore Milan housing listings, visualize a Folium map, and show an XGBoost model with SHAP explainability.

### Tech stack
- Streamlit (dashboard)
- Pandas (data)
- Folium (map exported as HTML)
- XGBoost (regression)
- SHAP (model explainability)

### Notes
This dashboard is designed as a **portfolio-friendly** project (fast, clean, and easy to deploy).".

Definition about_tab : Script unit := emit TabAbout (Markdown about_text).

(** The whole script, top to bottom. *)
Definition dashboard (e : env) : Script unit :=
  emit Main (PageConfig "Milan Housing Dashboard" "wide");;
  emit Main (Title "🏙️ Milan Housing Dashboard");;
  emit Main (Caption "Explore listings + map + model metrics + SHAP explainability");;
  (if negb (path_exists (data_file e)) then
     emit Main (ErrorBox ("❌ data file not found: " ++ DATA_PATH e));;
     st_stop
   else ret tt);;
  df <- load_data (data_file e);;
  let price_col := resolve df price in
  let priceperm_col := resolve df price_per_area in
  let ln_price_col := resolve df ln_price in
  filtered <- sidebar_filters (visitor e) (detect df) df;;
  emit Sidebar (Markdown "---");;
  emit Sidebar (Metric "Rows after filters"
                  (PyFormat.format_int_commas (length (rows filtered))));;
  emit Sidebar (DownloadButton "⬇️ Download filtered data (CSV)" filtered
                  "milan_filtered.csv" "text/csv");;
  emit Main (Tabs ["📊 Explore"; "🤖 Model"; "ℹ️ About"]);;
  explore_tab e df filtered price_col priceperm_col ln_price_col;;
  model_tab e;;
  about_tab.

End Coercion.

(** The rows whose value in column [c] is one of [selected]. *)
Definition rows_among (df : DataFrame) (c : string) (selected : list cell)
  : list (list cell) :=
  List.filter (fun r => existsb (cell_eqb (row_value df c r)) selected) (rows df).

Definition with_rows (df : DataFrame) (rs : list (list cell)) : DataFrame :=
  {| columns := columns df; rows := rs; columns_distinct := columns_distinct df |}.

(** A series [sorted] can order: numbers only, or texts only. *)
Definition all_numbers (s : list cell) : Prop :=
  Forall (fun c => exists q, c = Num q) s.
Definition all_texts (s : list cell) : Prop :=
  Forall (fun c => exists t, c = Text t) s.

(** The controls that hold a constraint: a multiselect with a selection,
    and every slider (at its full range a slider still keeps out the rows
    without a number). *)
Definition constrains (w : widget) : bool :=
  match w with
  | Multiselect _ _ (_ :: _) => true
  | SliderInt _ _ _ _ => true
  | SliderFloat _ _ _ _ => true
  | _ => false
  end.


(** The same installation with another state of the metrics file. *)
Definition with_metrics (e : env) (f : file json) : env :=
  {| base_dir := base_dir e;
     data_file := data_file e;
     map_file := map_file e;
     metrics_file := f;
     shap_summary_bar_file := shap_summary_bar_file e;
     shap_beeswarm_file := shap_beeswarm_file e;
     shap_dep_transport_file := shap_dep_transport_file e;
     visitor := visitor e |}.

(** The three metric KPIs, each showing the em-dash. *)
Definition no_data_kpis : list element :=
  [ (MetricCol 1, Metric "RMSE" em_dash);
    (MetricCol 2, Metric "MAE" em_dash);
    (MetricCol 3, Metric "R²" em_dash) ].

(** The text of a KPI that has data: the float, by the rule of the two
    helpers. *)
Definition kpi_text (m : pyfloat) : string :=
  if float_gt m 10
  then PyFormat.format_float true 0 m
  else PyFormat.format_float false 3 m.


(** ** Reading digits *)

(** The value of a decimal digit. *)
Definition digit_value (c : ascii) : option Z :=
  let n := nat_of_ascii c in
  if ((48 <=? n) && (n <=? 57))%nat then Some (Z.of_nat (n - 48)) else None.

(** The value of a string of decimal digits. *)
Definition number_of (ds : list ascii) : Z :=
  fold_left (fun a c => 10 * a + default 0 (digit_value c)) ds 0.

Definition is_digit (c : ascii) : Prop := digit_value c <> None.

Definition chars (s : string) : list ascii := list_ascii_of_string s.

(** ** Instances used to run the definitions *)

Fixpoint read_decimal (cs : list ascii) (num : Z) (den : positive)
    (in_fraction seen_digit : bool) : option Q :=
  match cs with
  | [] => if seen_digit then Some (num # den) else None
  | c :: cs' =>
      match digit_value c with
      | Some d =>
          read_decimal cs' (10 * num + d)
            (if in_fraction then (10 * den)%positive else den) in_fraction true
      | None =>
          if Ascii.eqb c "." && negb in_fraction
          then read_decimal cs' num den true seen_digit
          else None
      end
  end.

(** A reader of plain decimal literals ([12], [-3.5]): the least that both
    library parsers accept, and enough to run the script on examples. *)
Definition decimal_text (s : string) : option Q :=
  match list_ascii_of_string s with
  | "-"%char :: cs => option_map Qopp (read_decimal cs 0 1 false false)
  | cs => read_decimal cs 0 1 false false
  end.

Definition decimal_float (s : string) : option pyfloat :=
  option_map Finite (decimal_text s).

Definition Qsum (v : list Q) : Q := fold_right Qplus 0%Q v.

Fixpoint Qinsert (x : Q) (l : list Q) : list Q :=
  match l with
  | [] => [x]
  | y :: l' => if Qle_bool x y then x :: y :: l' else y :: Qinsert x l'
  end.

Definition Qsort (v : list Q) : list Q := fold_right Qinsert [] v.

(** The mean and the median in exact arithmetic: the sum over the count,
    and the middle value or the half-sum of the two middle ones.  They are
    what pandas returns on a series where these are binary64 numbers, as in
    the examples below; elsewhere pandas rounds after each operation. *)
Definition exact_mean (v : list Q) : pyfloat :=
  Finite (Qsum v / inject_Z (Z.of_nat (length v))).

Definition exact_median (v : list Q) : pyfloat :=
  let s := Qsort v in
  let n := length s in
  Finite (if Nat.even n
          then (nth (n / 2 - 1) s 0 + nth (n / 2) s 0) / 2
          else nth (n / 2) s 0)%Q.

(** Bins of equal width in exact arithmetic, laid out as pandas lays them:
    from the least to the greatest value with the first edge moved down by
    a thousandth of the range, or around a single value by a thousandth of
    it; a bin holds the values above its left edge and up to its right one,
    the first bin its left edge too. *)
Definition equal_width_bins (v : list Q) (n : nat) : outcome histogram :=
  match v with
  | [] => Raised ValueError
  | x :: v' =>
      let mn := series_min x v' in
      let mx := series_max x v' in
      let single := Qeq_bool mn mx in
      let pad (q : Q) : Q :=
        (if Qeq_bool q 0 then 1 # 1000 else Qabs q / 1000)%Q in
      let lo := (if single then mn - pad mn else mn)%Q in
      let hi := (if single then mx + pad mx else mx)%Q in
      let edge (i : nat) : Q :=
        (lo + inject_Z (Z.of_nat i) * ((hi - lo) / inject_Z (Z.of_nat n)))%Q in
      let left (i : nat) : Q :=
        match i with
        | O => (if single then lo else lo - (hi - lo) / 1000)%Q
        | S _ => edge i
        end in
      let holds (i : nat) (q : Q) : bool :=
        (match i with
         | O => Qle_bool (left i) q
         | S _ => Qlt_bool (left i) q
         end) && Qle_bool q (edge (S i)) in
      Done (map (fun i => (left i, edge (S i), length (List.filter (holds i) v)))
              (seq 0 n))
  end.

Definition frame (cols : list string) (rs : list (list cell))
    (H : distinct cols = true) : DataFrame :=
  {| columns := cols; rows := rs; columns_distinct := H |}.

(** The table of the end-to-end scenario. *)
Definition scenario : DataFrame :=
  frame ["Area"; "Bedroom"; "price"]
        [ [Text "X"; Num 2; Num 500000];
          [Text "Y"; Num 5; Num 15] ] eq_refl.

(** A visitor who narrows the bedroom slider to [2, 3] and clears nothing. *)
Definition bedrooms_2_3 : user :=
  {| multiselect_state := fun _ _ d => d;
     slider_int_state := fun _ _ _ _ => (2, 3);
     slider_float_state := fun _ _ _ d => d |}.

(** A visitor who clears the multiselect, and one who keeps area X only. *)
Definition clears_areas : user :=
  {| multiselect_state := fun _ _ _ => [];
     slider_int_state := fun _ _ _ d => d;
     slider_float_state := fun _ _ _ d => d |}.

Definition picks_area_X : user :=
  {| multiselect_state := fun _ _ _ => [Text "X"];
     slider_int_state := fun _ _ _ d => d;
     slider_float_state := fun _ _ _ d => d |}.



(** Listings of two areas, the larger homes in the second one. *)
Definition listings : DataFrame :=
  frame ["Area"; "Bedroom"]
        [ [Text "X"; Num 2]; [Text "X"; Num 3]; [Text "Y"; Num 5] ] eq_refl.

(** An installation with the scenario table and none of the optional
    artifacts. *)
Definition bare_install : env :=
  {| base_dir := "/srv/dashboard";
     data_file := Holds scenario;
     map_file := Absent;
     metrics_file := Absent;
     shap_summary_bar_file := Absent;
     shap_beeswarm_file := Absent;
     shap_dep_transport_file := Absent;
     visitor := untouched |}.

(** The same installation without the dataset. *)
Definition empty_install : env :=
  {| base_dir := "/srv/dashboard";
     data_file := Absent;
     map_file := Absent;
     metrics_file := Absent;
     shap_summary_bar_file := Absent;
     shap_beeswarm_file := Absent;
     shap_dep_transport_file := Absent;
     visitor := untouched |}.

(** ** Reading the sidebar page *)

(** The value a row holds in the column a role is bound to. *)
Definition value_in (df : DataFrame) (col : option string) (r : list cell) : cell :=
  match col with
  | Some c => row_value df c r
  | None => Missing
  end.

(** What one control of the sidebar asks of a row: a multiselect with a
    selection, that the area is selected; the bedroom slider and the two
    score sliders, that the value is a number within the chosen range. *)
Definition control_keeps (to_numeric_text : string -> option Q) (b : bindings)
    (df : DataFrame) (w : widget) (r : list cell) : bool :=
  match w with
  | Multiselect _ _ (y :: selected) =>
      existsb (cell_eqb (value_in df (area_col b) r)) (y :: selected)
  | SliderInt _ _ _ (lo, hi) =>
      in_range (inject_Z lo) (inject_Z hi)
        (coerce to_numeric_text (value_in df (bed_col b) r))
  | SliderFloat label _ _ (lo, hi) =>
      if String.eqb label "Energy_score range"
      then in_range lo hi (coerce to_numeric_text (value_in df (energy_col b) r))
      else in_range lo hi (coerce to_numeric_text (value_in df (transport_col b) r))
  | _ => true
  end.

Definition passes_all (to_numeric_text : string -> option Q) (b : bindings)
    (df : DataFrame) (controls : list element) (r : list cell) : bool :=
  forallb (fun el => control_keeps to_numeric_text b df (snd el) r) controls.

(** ** Reading the options of the multiselect *)

(** No two values of the list are equal. *)
Fixpoint all_different (l : list cell) : bool :=
  match l with
  | [] => true
  | x :: l' => negb (existsb (cell_eqb x) l') && all_different l'
  end.

(** No value is followed by a smaller one. *)
Fixpoint ascending (l : list cell) : Prop :=
  match l with
  | x :: (y :: _) as l' => cell_lt y x = Done false /\ ascending l'
  | _ => True
  end.

Definition is_missing (c : cell) : bool :=
  match c with
  | Missing => true
  | _ => false
  end.



(** An integer that binary64 holds exactly for sure: one below [2^53] in
    magnitude. *)
Definition exact_as_float (n : Z) : Prop := Z.abs n < 2 ^ 53.

(** The float a metrics object gives for a key: its last value for the key
    when that is a float or an integer, and 0 when the key is not there. *)
Definition metric_number (members : list (string * json)) (key : string) : pyfloat :=
  match assoc_last key members None with
  | Some (JFloat f) => f
  | Some (JInt n) => Finite (inject_Z n)
  | _ => Finite 0
  end.

(** The three metric KPIs showing numbers, and the caption under them. *)
Definition metric_kpis (rmse mae r2 : pyfloat) : list element :=
  [ (MetricCol 1, Metric "RMSE" (PyFormat.format_float false 4 rmse));
    (MetricCol 2, Metric "MAE" (PyFormat.format_float false 4 mae));
    (MetricCol 3, Metric "R²" (PyFormat.format_float false 4 r2));
    (TabModel, Caption "Metrics loaded from model_metrics.json") ].

(** Two lists of names with no name in common. *)
Definition no_common_name (l1 l2 : list string) : bool :=
  forallb (fun c => negb (existsb (String.eqb c) l2)) l1.

(** ** Parts of the Explore tab *)

(** The map column of the Explore tab: the embedded map, or the warning. *)
Definition map_section (f : file string) : Script unit :=
  if path_exists f then
    map_html <- lift (read_file f);;
    emit ColRight (Html map_html 560 true);;
    emit ColRight (Caption "Map rendered from milan_area_map_lnprice.html")
  else
    emit ColRight (WarningBox "Map file not found: milan_area_map_lnprice.html").

(** The price chart at the end of the Explore tab. *)
Definition price_chart (to_numeric_text : string -> option Q)
    (value_counts : list Q -> nat -> outcome histogram) (filtered : DataFrame)
    (price_col : option string) : Script unit :=
  match truthy price_col with
  | Some c =>
      if has_column filtered c then
        emit TabExplore (Markdown "### Price distribution (filtered)");;
        s <- lift (getitem filtered c);;
        let hist_data := dropna (to_num to_numeric_text s) in
        if (0 <? length hist_data)%nat
        then
          counts <- lift (value_counts hist_data 25%nat);;
          emit TabExplore (BarChart counts)
        else emit TabExplore (InfoBox "No numeric price values to plot.")
      else ret tt
  | None => ret tt
  end.

(** The three SHAP tabs of the Model tab. *)
Definition shap_section (e : env) : Script unit :=
  shap_image 0 (shap_summary_bar_file e) (SHAP_SUMMARY_BAR_PNG e) "shap_summary_bar.png";;
  shap_image 1 (shap_beeswarm_file e) (SHAP_BEESWARM_PNG e) "shap_beeswarm.png";;
  shap_image 2 (shap_dep_transport_file e) (SHAP_DEP_TRANSPORT_PNG e)
    "shap_dependence_transport.png".

(** The Explore tab down to the heading of the map column, given the three
    KPI texts. *)
Definition explore_head (df filtered : DataFrame) (k2 k3 k4 : string) : list element :=
  [ (TabExplore,
     SuccessBox ("✅ Dataset loaded | Rows: "
                 ++ PyFormat.format_int_commas (length (rows df))
                 ++ " | Columns: " ++ decimal (length (columns df))));
    (TabExplore, Columns 4);
    (Kpi 1, Metric "Listings (filtered)"
              (PyFormat.format_int_commas (length (rows filtered))));
    (Kpi 2, Metric "Median price" k2);
    (Kpi 3, Metric "Median price / m²" k3);
    (Kpi 4, Metric "Mean ln_price" k4);
    (TabExplore, Markdown "### Preview & Map");
    (TabExplore, Columns 2);
    (ColLeft, Subheader "📄 Dataset preview");
    (ColLeft, Dataframe (head50 filtered));
    (ColRight, Subheader "🗺️ Milan map (saved Folium HTML)") ].

(** The containers of the Model and About tabs. *)
Definition in_model_or_about (c : container) : bool :=
  match c with
  | TabModel | TabAbout | MetricCol _ | ShapTab _ => true
  | _ => false
  end.

(** * Properties *)

(** ** Number formatting *)

Module PyFormatFacts.
Import PyFormat.

Lemma digit_value_digit (k : Z) : 0 <= k < 10 -> digit_value (digit k) = Some k.
Proof.
  intros H.
  assert (k = 0 \/ k = 1 \/ k = 2 \/ k = 3 \/ k = 4 \/ k = 5 \/ k = 6 \/ k = 7
          \/ k = 8 \/ k = 9) as Hk by lia.
  repeat (destruct Hk as [->|Hk]; [reflexivity|]). by subst k.
Qed.

Lemma digit_mod_is_digit (n : Z) : is_digit (digit (n mod 10)).
Proof.
  unfold is_digit. rewrite digit_value_digit; [done|].
  apply Z.mod_pos_bound. lia.
Qed.

Lemma digits_fuel_app (fuel : nat) (n : Z) (acc : list ascii) :
  digits_fuel fuel n acc = (digits_fuel fuel n [] ++ acc)%list.
Proof.
  revert n acc. induction fuel as [|fuel IH]; intros n acc; simpl; [done|].
  destruct (n / 10 =? 0); [done|].
  rewrite (IH (n / 10) (digit (n mod 10) :: acc)).
  rewrite (IH (n / 10) [digit (n mod 10)]).
  by rewrite <- app_assoc.
Qed.

Lemma digits_fuel_Forall (fuel : nat) (n : Z) (acc : list ascii) :
  Forall is_digit acc -> Forall is_digit (digits_fuel fuel n acc).
Proof.
  revert n acc. induction fuel as [|fuel IH]; intros n acc Hacc; simpl; [done|].
  assert (Forall is_digit (digit (n mod 10) :: acc)) as H.
  { constructor; [apply digit_mod_is_digit | done]. }
  destruct (n / 10 =? 0); [done | by apply IH].
Qed.

Lemma digits_Forall (n : Z) : Forall is_digit (digits n).
Proof. apply digits_fuel_Forall. constructor. Qed.

Lemma digits_nonempty (n : Z) : digits n <> [].
Proof.
  unfold digits. simpl. destruct (n / 10 =? 0); [done|].
  rewrite digits_fuel_app. intros H. by apply app_eq_nil in H as [_ H].
Qed.

Lemma number_of_snoc (ds : list ascii) (c : ascii) :
  number_of (ds ++ [c]) = 10 * number_of ds + default 0 (digit_value c).
Proof. unfold number_of. by rewrite fold_left_app. Qed.

Lemma number_of_digits_fuel (fuel : nat) (n : Z) :
  0 <= n < 10 ^ Z.of_nat fuel -> number_of (digits_fuel fuel n []) = n.
Proof.
  revert n. induction fuel as [|fuel IH]; intros n Hn.
  - change (10 ^ Z.of_nat 0) with 1 in Hn.
    change (number_of (digits_fuel 0 n [])) with 0. lia.
  - cbn [digits_fuel].
    assert (0 <= n mod 10 < 10) as Hmod by (apply Z.mod_pos_bound; lia).
    pose proof (Z.div_mod n 10 ltac:(lia)) as Hdiv.
    destruct (n / 10 =? 0) eqn:E.
    + apply Z.eqb_eq in E.
      change [digit (n mod 10)] with ([] ++ [digit (n mod 10)])%list.
      rewrite number_of_snoc, digit_value_digit by done.
      change (number_of []) with 0. cbn [from_option id]. lia.
    + rewrite digits_fuel_app, number_of_snoc, digit_value_digit by done.
      rewrite IH; [cbn [from_option id]; lia|].
      rewrite Nat2Z.inj_succ, Z.pow_succ_r in Hn by lia.
      split; [apply Z.div_pos; lia|].
      apply Z.div_lt_upper_bound; lia.
Qed.

(** The digits of a natural number read back as that number. *)
Lemma number_of_digits (n : Z) : 0 <= n -> number_of (digits n) = n.
Proof.
  intros Hn. unfold digits. apply number_of_digits_fuel. split; [done|].
  destruct (Z.eq_dec n 0) as [->|Hne]; [done|].
  rewrite Nat2Z.inj_succ, Z2Nat.id by apply Z.log2_nonneg.
  destruct (Z.log2_spec n ltac:(lia)) as [_ Hlt].
  eapply Z.lt_le_trans; [exact Hlt|].
  apply Z.pow_le_mono_l. split; [lia|lia].
Qed.

Lemma frac_digits_app (d : nat) (n : Z) (acc : list ascii) :
  frac_digits d n acc = (frac_digits d n [] ++ acc)%list.
Proof.
  revert n acc. induction d as [|d IH]; intros n acc; simpl; [done|].
  rewrite (IH (n / 10) (digit (n mod 10) :: acc)).
  rewrite (IH (n / 10) [digit (n mod 10)]).
  by rewrite <- app_assoc.
Qed.

Lemma frac_digits_length (d : nat) (n : Z) (acc : list ascii) :
  length (frac_digits d n acc) = (d + length acc)%nat.
Proof.
  revert n acc. induction d as [|d IH]; intros n acc; simpl; [done|].
  rewrite IH. simpl. lia.
Qed.

Lemma frac_digits_Forall (d : nat) (n : Z) (acc : list ascii) :
  Forall is_digit acc -> Forall is_digit (frac_digits d n acc).
Proof.
  revert n acc. induction d as [|d IH]; intros n acc Hacc; simpl; [done|].
  apply IH. constructor; [apply digit_mod_is_digit | done].
Qed.

Lemma number_of_frac_digits (d : nat) (n : Z) :
  0 <= n -> number_of (frac_digits d n []) = n mod 10 ^ Z.of_nat d.
Proof.
  revert n. induction d as [|d IH]; intros n Hn.
  - change (10 ^ Z.of_nat 0) with 1. rewrite Z.mod_1_r. reflexivity.
  - cbn [frac_digits].
    assert (0 <= n mod 10 < 10) as Hmod by (apply Z.mod_pos_bound; lia).
    rewrite frac_digits_app, number_of_snoc, digit_value_digit by done.
    rewrite IH by (apply Z.div_pos; lia).
    rewrite Nat2Z.inj_succ, Z.pow_succ_r by lia. cbn [from_option id].
    rewrite (Z.rem_mul_r n 10 (10 ^ Z.of_nat d)) by lia. lia.
Qed.


(** Taking the commas out of a grouped number gives its digits back. *)
Lemma group3_digits (ds : list ascii) :
  Forall is_digit ds ->
  List.filter (fun c => negb (Ascii.eqb c ",")) (group3 ds) = ds.
Proof.
  induction 1 as [|c ds Hc _ IH]; simpl; [done|].
  assert (Ascii.eqb c "," = false) as ->.
  { apply Ascii.eqb_neq. intros ->. by apply Hc. }
  simpl. f_equal. destruct (_ && _); simpl; by rewrite IH.
Qed.

(** Rounding half to even moves a non-negative value by at most a half. *)
Lemma round_half_even_near (q : Q) :
  (0 <= q)%Q ->
  (Qabs (inject_Z (round_half_even q) - q) <= 1 # 2)%Q /\ 0 <= round_half_even q.
Proof.
  destruct q as [n d]. intros Hq.
  assert (0 <= n) as Hn by (unfold Qle in Hq; simpl in Hq; lia). clear Hq.
  unfold round_half_even. cbn [Qnum Qden].
  pose proof (Z.div_mod n (Z.pos d) ltac:(done)) as Hdiv.
  pose proof (Z.mod_pos_bound n (Z.pos d) ltac:(done)) as Hmod.
  assert (0 <= n / Z.pos d) as Hf by (apply Z.div_pos; lia).
  set (f := n / Z.pos d) in *. set (r := n mod Z.pos d) in *.
  clearbody f r.
  assert (forall k : Z,
            2 * Z.abs (k * Z.pos d - n) <= Z.pos d ->
            (Qabs (inject_Z k - (n # d)) <= 1 # 2)%Q) as Hnear.
  { intros k Hk. unfold Qle, Qabs, Qminus, Qplus, Qopp, inject_Z. simpl.
    rewrite Pos.mul_1_l. lia. }
  destruct (Z.compare_spec (2 * r) (Z.pos d)) as [C|C|C].
  - destruct (Z.even f); (split; [apply Hnear|]); lia.
  - split; [apply Hnear|]; lia.
  - split; [apply Hnear|]; lia.
Qed.

Lemma number_of_app (a b : list ascii) :
  number_of (a ++ b) = number_of a * 10 ^ Z.of_nat (length b) + number_of b.
Proof.
  induction b as [|c b IH] using rev_ind.
  - rewrite app_nil_r. change (number_of []) with 0.
    change (10 ^ Z.of_nat (length (@nil ascii))) with 1. lia.
  - rewrite app_assoc, !number_of_snoc, IH, length_app, Nat2Z.inj_add.
    change (Z.of_nat (length [c])) with 1.
    rewrite Z.pow_add_r, Z.pow_1_r by lia. lia.
Qed.

Lemma Qabs_scaled_nonneg (q : Q) (d : nat) :
  (0 <= Qabs q * inject_Z (10 ^ Z.of_nat d))%Q.
Proof.
  apply Qmult_le_0_compat; [apply Qabs_nonneg|].
  change 0%Q with (inject_Z 0). rewrite <- Zle_Qle. apply Z.pow_nonneg. lia.
Qed.

(** The text of a formatted number: an optional sign, the digits of the
    whole part, grouped or not, and after a point exactly [d] digits; read
    as one number, the digits are the magnitude scaled by [10^d], correct
    to half a unit. *)
Theorem format_f_spec (commas : bool) (d : nat) (q : Q) :
  exists whole frac,
    chars (format_f commas d q)
    = ((if Qlt_bool q 0 then ["-"%char] else [])
       ++ (if commas then group3 whole else whole)
       ++ match d with O => [] | S _ => "."%char :: frac end)%list /\
    Forall is_digit whole /\ whole <> [] /\
    Forall is_digit frac /\ length frac = d /\
    (Qabs (inject_Z (number_of (whole ++ frac))
           - Qabs q * inject_Z (10 ^ Z.of_nat d)) <= 1 # 2)%Q.
Proof.
  set (scaled := round_half_even (Qabs q * inject_Z (10 ^ Z.of_nat d))).
  exists (digits (scaled / 10 ^ Z.of_nat d)),
         (frac_digits d (scaled mod 10 ^ Z.of_nat d) []).
  destruct (round_half_even_near _ (Qabs_scaled_nonneg q d)) as [Hnear Hpos].
  fold scaled in Hnear, Hpos.
  assert (0 < 10 ^ Z.of_nat d) as Hpow by (apply Z.pow_pos_nonneg; lia).
  split; [|split; [|split; [|split; [|split]]]].
  - unfold chars, format_f. fold scaled.
    rewrite list_ascii_of_string_of_list_ascii.
    destruct d; [|done]. by destruct commas.
  - apply digits_Forall.
  - apply digits_nonempty.
  - apply frac_digits_Forall. constructor.
  - rewrite frac_digits_length. simpl. lia.
  - rewrite number_of_app, frac_digits_length.
    change (length (@nil ascii)) with 0%nat. rewrite Nat.add_0_r.
    rewrite number_of_digits by (apply Z.div_pos; lia).
    rewrite number_of_frac_digits by (apply Z.mod_pos_bound; lia).
    rewrite Z.mod_mod by lia.
    replace (scaled / 10 ^ Z.of_nat d * 10 ^ Z.of_nat d
             + scaled mod 10 ^ Z.of_nat d) with scaled; [exact Hnear|].
    pose proof (Z.div_mod scaled (10 ^ Z.of_nat d) ltac:(lia)). lia.
Qed.


Lemma not_digit_comma : ~ is_digit ","%char.
Proof. intros H. by apply H. Qed.

Lemma not_digit_minus : ~ is_digit "-"%char.
Proof. intros H. by apply H. Qed.





End PyFormatFacts.

(** ** Columns and row selection *)

Lemma has_column_elem_of (df : DataFrame) (c : string) :
  has_column df c = true <-> c ∈ columns df.
Proof.
  unfold has_column. rewrite existsb_exists. split.
  - intros (x & Hin & Heq). apply String.eqb_eq in Heq. subst x.
    by apply list_elem_of_In.
  - intros Hin. exists c. split; [by apply list_elem_of_In | apply String.eqb_refl].
Qed.

Lemma has_column_false (df : DataFrame) (c : string) :
  has_column df c = false <-> c ∉ columns df.
Proof.
  rewrite <- has_column_elem_of. destruct (has_column df c); split; congruence.
Qed.

Lemma column_index_Some (c : string) (cols : list string) :
  c ∈ cols -> exists i, column_index c cols = Some i /\ cols !! i = Some c.
Proof.
  induction cols as [|c' cols IH]; intros Hin.
  - by apply elem_of_nil in Hin.
  - simpl. destruct (String.eqb c c') eqn:E.
    + apply String.eqb_eq in E. subst c'. by exists O.
    + apply elem_of_cons in Hin as [->|Hin].
      * by rewrite String.eqb_refl in E.
      * destruct (IH Hin) as (i & -> & Hi). by exists (S i).
Qed.

Lemma column_index_None (c : string) (cols : list string) :
  c ∉ cols -> column_index c cols = None.
Proof.
  induction cols as [|c' cols IH]; intros Hnin; [done|].
  simpl. apply not_elem_of_cons in Hnin as [Hne Hnin].
  destruct (String.eqb c c') eqn:E.
  - apply String.eqb_eq in E. done.
  - by rewrite IH.
Qed.

(** With pairwise different names, the column of a name is the one at the
    position where the name stands. *)
Lemma column_index_lookup (cols : list string) (i : nat) (c : string) :
  distinct cols = true -> cols !! i = Some c -> column_index c cols = Some i.
Proof.
  revert i. induction cols as [|c' cols IH]; intros i Hd Hi; [done|].
  simpl in Hd. apply andb_true_iff in Hd as [Hfresh Hd]. simpl.
  destruct i as [|i]; simpl in Hi.
  - injection Hi as ->. by rewrite String.eqb_refl.
  - destruct (String.eqb c c') eqn:E.
    + apply String.eqb_eq in E. subst c'. exfalso.
      apply negb_true_iff in Hfresh.
      assert (existsb (String.eqb c) cols = true) as Hin; [|congruence].
      apply existsb_exists. exists c. split; [|apply String.eqb_refl].
      apply list_elem_of_In, list_elem_of_lookup. eauto.
    + by rewrite (IH i Hd Hi).
Qed.

Lemma row_value_lookup (df : DataFrame) (i : nat) (c : string) (r : list cell) :
  columns df !! i = Some c -> row_value df c r = cell_at i r.
Proof.
  intros H. unfold row_value.
  by rewrite (column_index_lookup _ _ _ (columns_distinct df) H).
Qed.

Lemma getitem_present (df : DataFrame) (c : string) :
  c ∈ columns df -> getitem df c = Done (map (row_value df c) (rows df)).
Proof.
  intros Hin. unfold getitem, row_value.
  destruct (column_index_Some c (columns df) Hin) as (i & -> & _). done.
Qed.

Lemma getitem_absent (df : DataFrame) (c : string) :
  c ∉ columns df -> getitem df c = Raised (KeyError c).
Proof. intros H. unfold getitem. by rewrite column_index_None. Qed.

Lemma getitem_Done_inv (df : DataFrame) (c : string) (s : list cell) :
  getitem df c = Done s -> c ∈ columns df /\ s = map (row_value df c) (rows df).
Proof.
  intros H. destruct (decide (c ∈ columns df)) as [Hin|Hnin].
  - rewrite getitem_present in H by done. split; [done | congruence].
  - rewrite getitem_absent in H by done. discriminate.
Qed.

Lemma mask_rows_map {A : Type} (f : A -> bool) (l : list A) :
  mask_rows (map f l) l = List.filter f l.
Proof.
  induction l as [|x l IH]; [done|]. simpl. destruct (f x); by rewrite IH.
Qed.

Lemma filter_sublist_of {A : Type} (f : A -> bool) (l : list A) :
  List.filter f l `sublist_of` l.
Proof.
  induction l as [|x l IH]; simpl; [constructor|].
  destruct (f x); by constructor.
Qed.

Lemma mask_rows_sublist {A : Type} (mask : list bool) (l : list A) :
  mask_rows mask l `sublist_of` l.
Proof.
  revert mask. induction l as [|x l IH]; intros [|b mask]; simpl;
    try apply sublist_nil_l.
  destruct b; constructor; apply IH.
Qed.

(** ** The column resolver *)

Lemma pick_col_Some (df : DataFrame) (cands : list string) (c : string) :
  pick_col df cands = Some c <->
  exists before after,
    cands = (before ++ c :: after)%list /\ c ∈ columns df /\
    forall x, x ∈ before -> x ∉ columns df.
Proof.
  induction cands as [|c0 cands IH]; simpl.
  - split; [discriminate|]. intros (before & after & H & _). by destruct before.
  - destruct (has_column df c0) eqn:E.
    + apply has_column_elem_of in E. split.
      * intros [= <-]. exists [], cands. split; [done|]. split; [done|].
        intros x Hx. by apply elem_of_nil in Hx.
      * intros ([|b before] & after & Heq & Hin & Hbefore).
        -- simpl in Heq. congruence.
        -- simpl in Heq. injection Heq as <- _.
           exfalso. apply (Hbefore c0); [apply elem_of_cons; by left | done].
    + apply has_column_false in E. rewrite IH. split.
      * intros (before & after & -> & Hin & Hbefore).
        exists (c0 :: before), after. split; [done|]. split; [done|].
        intros x Hx. apply elem_of_cons in Hx as [->|Hx]; [done | by apply Hbefore].
      * intros ([|b before] & after & Heq & Hin & Hbefore).
        -- simpl in Heq. injection Heq as -> _. done.
        -- simpl in Heq. injection Heq as <- ->.
           exists before, after. split; [done|]. split; [done|].
           intros x Hx. apply Hbefore. apply elem_of_cons. by right.
Qed.

Lemma pick_col_None (df : DataFrame) (cands : list string) :
  pick_col df cands = None <-> forall c, c ∈ cands -> c ∉ columns df.
Proof.
  induction cands as [|c0 cands IH]; simpl.
  - split; [|done]. intros _ c Hc. by apply elem_of_nil in Hc.
  - destruct (has_column df c0) eqn:E.
    + apply has_column_elem_of in E. split; [discriminate|].
      intros H. exfalso. apply (H c0); [apply elem_of_cons; by left | done].
    + apply has_column_false in E. rewrite IH. split.
      * intros H c Hc. apply elem_of_cons in Hc as [->|Hc]; [done | by apply H].
      * intros H c Hc. apply H. apply elem_of_cons. by right.
Qed.

(** C3. For every table and every role, the resolver returns the first name
    of the role's priority-ordered candidate list that is exactly (case
    included) the name of a column, and nothing when no candidate is one; a
    table with the columns Quartiere and price binds the area role to
    Quartiere. *)
Theorem resolve_first_candidate (df : DataFrame) (r : role) :
  (forall c, resolve df r = Some c <->
     exists before after,
       candidates r = (before ++ c :: after)%list /\ c ∈ columns df /\
       forall x, x ∈ before -> x ∉ columns df) /\
  (resolve df r = None <-> forall c, c ∈ candidates r -> c ∉ columns df) /\
  (forall rs, resolve (frame ["Quartiere"; "price"] rs eq_refl) area = Some "Quartiere") /\
  (forall rs, resolve (frame ["quartiere"; "PRICE"] rs eq_refl) price = None).
Proof.
  unfold resolve. split; [|split; [|split]].
  - intros c. apply pick_col_Some.
  - apply pick_col_None.
  - done.
  - done.
Qed.

(** ** The KPI helpers *)

Lemma truthy_Some (c : string) : c <> EmptyString -> truthy (Some c) = Some c.
Proof.
  intros H. simpl. destruct (String.eqb c EmptyString) eqn:E; [|done].
  by apply String.eqb_eq in E.
Qed.

Lemma truthy_inv (col : option string) (c : string) :
  truthy col = Some c -> col = Some c /\ c <> EmptyString.
Proof.
  destruct col as [c'|]; simpl; [|discriminate].
  destruct (String.eqb c' EmptyString) eqn:E; [discriminate|].
  intros [= ->]. split; [done|]. intros ->. by rewrite String.eqb_refl in E.
Qed.

Lemma candidates_nonempty (r : role) (c : string) :
  c ∈ candidates r -> c <> EmptyString.
Proof.
  intros H. destruct r; simpl in H;
    repeat (apply elem_of_cons in H as [->|H]; [discriminate|]);
    by apply elem_of_nil in H.
Qed.

Lemma resolve_bound (df : DataFrame) (r : role) (c : string) :
  resolve df r = Some c -> c ∈ columns df /\ c <> EmptyString.
Proof.
  intros H. apply pick_col_Some in H as (before & after & Hc & Hin & _).
  split; [done|]. apply (candidates_nonempty r). rewrite Hc.
  apply elem_of_app. right. apply elem_of_cons. by left.
Qed.

Section KpiHelpers.

Variable to_numeric_text : string -> option Q.
Variable series_mean : list Q -> pyfloat.
Variable series_median : list Q -> pyfloat.

Local Abbreviation coerce' := (coerce to_numeric_text).
Local Abbreviation to_num' := (to_num to_numeric_text).
Local Abbreviation numeric_values' := (numeric_values to_numeric_text).
Local Abbreviation safe_mean' := (safe_mean to_numeric_text series_mean).
Local Abbreviation safe_median' := (safe_median to_numeric_text series_median).

Lemma dropna_to_num_map {A : Type} (f : A -> cell) (l : list A) :
  dropna (to_num' (map f l)) = omap (fun r => coerce' (f r)) l.
Proof.
  induction l as [|x l IH]; [done|].
  unfold dropna, to_num in *. cbn [map omap list_omap].
  rewrite IH. done.
Qed.

Lemma numeric_values_getitem (df : DataFrame) (c : string) (s : list cell) :
  getitem df c = Done s -> dropna (to_num' s) = numeric_values' df c.
Proof.
  intros H. apply getitem_Done_inv in H as [_ ->]. apply dropna_to_num_map.
Qed.

Lemma numeric_values_nil (df : DataFrame) (c : string) :
  numeric_values' df c = [] <->
  forall r, r ∈ rows df -> coerce' (row_value df c r) = None.
Proof.
  unfold numeric_values. induction (rows df) as [|r0 l IH]; simpl.
  - split; [|done]. intros _ r Hr. by apply elem_of_nil in Hr.
  - destruct (coerce' (row_value df c r0)) eqn:E; simpl.
    + split; [discriminate|]. intros H.
      specialize (H r0 ltac:(apply elem_of_cons; by left)). congruence.
    + rewrite IH. split.
      * intros H r Hr. apply elem_of_cons in Hr as [->|Hr]; [done | by apply H].
      * intros H r Hr. apply H. apply elem_of_cons. by right.
Qed.

Lemma safe_mean_bound (df : DataFrame) (c : string) :
  c <> EmptyString -> c ∈ columns df ->
  safe_mean' df (Some c) =
  Done (match numeric_values' df c with
        | [] => em_dash
        | _ :: _ => kpi_text (series_mean (numeric_values' df c))
        end).
Proof.
  intros Hne Hin. unfold safe_mean. rewrite truthy_Some by done.
  rewrite (proj2 (has_column_elem_of df c) Hin).
  rewrite getitem_present by done. cbn [obind].
  rewrite dropna_to_num_map. fold (numeric_values' df c).
  by destruct (numeric_values' df c).
Qed.

Lemma safe_median_bound (df : DataFrame) (c : string) :
  c <> EmptyString -> c ∈ columns df ->
  safe_median' df (Some c) =
  Done (match numeric_values' df c with
        | [] => em_dash
        | _ :: _ => kpi_text (series_median (numeric_values' df c))
        end).
Proof.
  intros Hne Hin. unfold safe_median. rewrite truthy_Some by done.
  rewrite (proj2 (has_column_elem_of df c) Hin).
  rewrite getitem_present by done. cbn [obind].
  rewrite dropna_to_num_map. fold (numeric_values' df c).
  by destruct (numeric_values' df c).
Qed.

Lemma safe_mean_unbound (df : DataFrame) (col : option string) :
  (col = None \/ exists c, col = Some c /\ c ∉ columns df) ->
  safe_mean' df col = Done em_dash.
Proof.
  intros [->|(c & -> & Hnin)]; [done|].
  unfold safe_mean. destruct (truthy (Some c)) as [c'|] eqn:E; [|done].
  apply truthy_inv in E as [[= <-] _].
  by rewrite (proj2 (has_column_false df c) Hnin).
Qed.

Lemma safe_median_unbound (df : DataFrame) (col : option string) :
  (col = None \/ exists c, col = Some c /\ c ∉ columns df) ->
  safe_median' df col = Done em_dash.
Proof.
  intros [->|(c & -> & Hnin)]; [done|].
  unfold safe_median. destruct (truthy (Some c)) as [c'|] eqn:E; [|done].
  apply truthy_inv in E as [[= <-] _].
  by rewrite (proj2 (has_column_false df c) Hnin).
Qed.

Lemma safe_mean_returns (df : DataFrame) (col : option string) :
  exists text, safe_mean' df col = Done text.
Proof.
  destruct (truthy col) as [c|] eqn:E.
  - apply truthy_inv in E as [-> Hne].
    destruct (decide (c ∈ columns df)) as [Hin|Hnin].
    + rewrite safe_mean_bound by done. eauto.
    + rewrite safe_mean_unbound; eauto.
  - unfold safe_mean. rewrite E. eauto.
Qed.

Lemma safe_median_returns (df : DataFrame) (col : option string) :
  exists text, safe_median' df col = Done text.
Proof.
  destruct (truthy col) as [c|] eqn:E.
  - apply truthy_inv in E as [-> Hne].
    destruct (decide (c ∈ columns df)) as [Hin|Hnin].
    + rewrite safe_median_bound by done. eauto.
    + rewrite safe_median_unbound; eauto.
  - unfold safe_median. rewrite E. eauto.
Qed.

End KpiHelpers.

Lemma Qlt_bool_iff (x y : Q) : Qlt_bool x y = true <-> (x < y)%Q.
Proof.
  unfold Qlt_bool. rewrite negb_true_iff. split.
  - intros H. apply Qnot_le_lt. intros Hle. apply Qle_bool_iff in Hle. congruence.
  - intros H. destruct (Qle_bool y x) eqn:E; [|done].
    apply Qle_bool_iff in E. by apply Qlt_not_le in H.
Qed.

Lemma Qlt_bool_false (x y : Q) : Qlt_bool x y = false <-> (y <= x)%Q.
Proof.
  unfold Qlt_bool. rewrite negb_false_iff. apply Qle_bool_iff.
Qed.

Example em_dash_bytes :
  list_ascii_of_string em_dash = ["226"; "128"; "148"]%char.
Proof. reflexivity. Qed.






(** C7. For every view and column, when no value of the column coerces to a
    number, so that the numeric set is empty, the mean and the median are
    the em-dash marker. *)
Theorem central_tendency_no_data
    (to_numeric_text : string -> option Q)
    (series_mean series_median : list Q -> pyfloat)
    (view : DataFrame) (c : string) :
  (forall r, r ∈ rows view -> coerce to_numeric_text (row_value view c r) = None) ->
  safe_mean to_numeric_text series_mean view (Some c) = Done em_dash /\
  safe_median to_numeric_text series_median view (Some c) = Done em_dash.
Proof.
  intros H. apply numeric_values_nil in H.
  destruct (decide (c ∈ columns view)) as [Hin|Hnin].
  - destruct (String.eqb c EmptyString) eqn:E.
    + unfold safe_mean, safe_median. simpl. by rewrite E.
    + assert (c <> EmptyString) as Hne.
      { intros ->. by rewrite String.eqb_refl in E. }
      rewrite safe_mean_bound, safe_median_bound by done. by rewrite H.
  - split; [apply safe_mean_unbound | apply safe_median_unbound]; eauto.
Qed.

Lemma central_tendency_no_data_witness :
  let view := frame ["Area"; "price"] [[Text "X"; Text "n/a"]; [Text "Y"; Missing]] eq_refl in
  safe_mean decimal_text exact_mean view (Some "price") = Done em_dash /\
  safe_median decimal_text exact_median view (Some "price") = Done em_dash.
Proof.
  apply (central_tendency_no_data decimal_text exact_mean exact_median).
  intros r Hr. repeat (apply elem_of_cons in Hr as [->|Hr]; [reflexivity|]).
  by apply elem_of_nil in Hr.
Defined.

(** C9. For every data frame, the mean and the median helpers return a
    text and raise nothing, a [KeyError] for a missing column included; the
    text is the em-dash marker when the column is unbound or names no column
    of the frame. *)
Theorem safe_stats_never_raise
    (to_numeric_text : string -> option Q)
    (series_mean series_median : list Q -> pyfloat)
    (df : DataFrame) (col : option string) :
  (exists text, safe_mean to_numeric_text series_mean df col = Done text) /\
  (exists text, safe_median to_numeric_text series_median df col = Done text) /\
  (col = None \/ (exists c, col = Some c /\ c ∉ columns df) ->
   safe_mean to_numeric_text series_mean df col = Done em_dash /\
   safe_median to_numeric_text series_median df col = Done em_dash).
Proof.
  split; [apply safe_mean_returns|]. split; [apply safe_median_returns|].
  intros H. split; [by apply safe_mean_unbound | by apply safe_median_unbound].
Qed.

Lemma safe_stats_never_raise_witness :
  safe_mean decimal_text exact_mean scenario (Some "ln_price") = Done em_dash /\
  safe_median decimal_text exact_median scenario None = Done em_dash.
Proof.
  split.
  - apply (safe_stats_never_raise decimal_text exact_mean exact_median scenario
             (Some "ln_price")).
    right. exists "ln_price". split; [reflexivity|].
    intros H. repeat (apply elem_of_cons in H as [H|H]; [discriminate H|]).
    by apply elem_of_nil in H.
  - apply (safe_stats_never_raise decimal_text exact_mean exact_median scenario None).
    by left.
Defined.

(** ** Running a script *)

Lemma bind_lift_Done {A B : Type} (a : A) (f : A -> Script B) :
  bind (lift (Done a)) f = f a.
Proof. unfold bind, lift. by destruct (f a). Qed.

Lemma bind_cons_Done {A B : Type} (el : element) (a : A) (f : A -> Script B) :
  bind ([el], Done a) f = (el :: page (f a), result (f a)).
Proof. unfold bind, page, result. by destruct (f a). Qed.


(** ** The sidebar blocks, case by case *)

Lemma area_block_unbound (u : user) (col : option string) (df : DataFrame) :
  truthy col = None -> area_block u col df = ret df.
Proof. intros H. unfold area_block. by rewrite H. Qed.

Lemma isin_rows_among (df : DataFrame) (c : string) (selected : list cell) :
  mask_rows (isin (map (row_value df c) (rows df)) selected) (rows df)
  = rows_among df c selected.
Proof.
  unfold isin, rows_among. rewrite map_map.
  apply (mask_rows_map (fun r => existsb (cell_eqb (row_value df c r)) selected)).
Qed.

(** The area block on a bound column: a [TypeError] when the distinct
    values do not sort, else the multiselect and the membership filter. *)
Lemma area_block_bound (u : user) (c : string) (df : DataFrame) :
  c <> EmptyString -> c ∈ columns df ->
  area_block u (Some c) df =
  match sorted (unique (dropna_cells (map (row_value df c) (rows df)))) with
  | Done areas =>
      let selected :=
        multiselect_state u "Area" areas
          (if (10 <? length areas)%nat then take 10 areas else areas) in
      ([(Sidebar, Multiselect "Area" areas selected)],
       Done (match selected with
             | [] => df
             | _ :: _ => with_rows df (rows_among df c selected)
             end))
  | Stopped => ([], Stopped)
  | Raised e => ([], Raised e)
  end.
Proof.
  intros Hne Hin. unfold area_block. rewrite truthy_Some by done.
  rewrite getitem_present by done. rewrite bind_lift_Done.
  destruct (sorted _) as [areas| |e]; [|done..].
  rewrite bind_lift_Done. unfold st_multiselect. rewrite bind_cons_Done.
  destruct (multiselect_state u _ _ _) as [|y sel] eqn:E; [done|].
  rewrite bind_lift_Done. unfold ret, page, result, getitem_mask, with_rows. simpl.
  by rewrite isin_rows_among.
Qed.

Section RangeBlocks.

Variable to_numeric_text : string -> option Q.

Local Abbreviation coerce' := (coerce to_numeric_text).
Local Abbreviation to_num' := (to_num to_numeric_text).
Local Abbreviation numeric_values' := (numeric_values to_numeric_text).
Local Abbreviation rows_in_range' := (rows_in_range to_numeric_text).
Local Abbreviation bedroom_block' := (bedroom_block to_numeric_text).
Local Abbreviation float_range_block' := (float_range_block to_numeric_text).

Lemma between_rows_in_range (df : DataFrame) (c : string) (lo hi : Q) :
  mask_rows (between (to_num' (map (row_value df c) (rows df))) lo hi) (rows df)
  = rows_in_range' df c lo hi.
Proof.
  unfold between, to_num, rows_in_range.
  rewrite !map_map.
  apply (mask_rows_map (fun r => in_range lo hi (coerce' (row_value df c r)))).
Qed.

Lemma range_block_unbound (label : string) (u : user) (col : option string)
    (df : DataFrame) :
  truthy col = None ->
  bedroom_block' u col df = ret df /\ float_range_block' label u col df = ret df.
Proof.
  intros H. unfold bedroom_block, float_range_block.
  by rewrite H.
Qed.

(** The bedroom block on a bound column: nothing without a number or with
    equal integer bounds; else the slider and the range filter, or the
    exception of the slider when a bound is no safe integer. *)
Lemma bedroom_block_bound (u : user) (c : string) (df : DataFrame) :
  c <> EmptyString -> c ∈ columns df ->
  bedroom_block' u (Some c) df =
  match numeric_values' df c with
  | x :: b =>
      let bmin := py_int (series_min x b) in
      let bmax := py_int (series_max x b) in
      if bmin =? bmax then ret df
      else if js_safe_integer bmin && js_safe_integer bmax then
        let br := slider_int_state u "Bedroom range" bmin bmax (bmin, bmax) in
        ([(Sidebar, SliderInt "Bedroom range" bmin bmax br)],
         Done (with_rows df
                 (rows_in_range' df c (inject_Z (fst br)) (inject_Z (snd br)))))
      else ([], Raised StreamlitAPIException)
  | [] => ret df
  end.
Proof.
  intros Hne Hin. unfold bedroom_block. rewrite truthy_Some by done.
  rewrite getitem_present by done. rewrite bind_lift_Done.
  rewrite dropna_to_num_map. fold (numeric_values' df c).
  destruct (numeric_values' df c) as [|x b]; [done|].
  cbv zeta. destruct (_ =? _); [done|]. cbn [negb].
  unfold st_slider_int. destruct (_ && _); [|done].
  rewrite bind_cons_Done, bind_lift_Done.
  unfold ret, page, result, getitem_mask, with_rows. cbn [fst snd].
  by rewrite between_rows_in_range.
Qed.

(** The energy and transport blocks on a bound column. *)
Lemma float_range_block_bound (label : string) (u : user) (c : string)
    (df : DataFrame) :
  c <> EmptyString -> c ∈ columns df ->
  float_range_block' label u (Some c) df =
  match numeric_values' df c with
  | x :: e =>
      let emin := series_min x e in
      let emax := series_max x e in
      if Qeq_bool emin emax then ret df
      else
        let er := slider_float_state u label emin emax (emin, emax) in
        ([(Sidebar, SliderFloat label emin emax er)],
         Done (with_rows df (rows_in_range' df c (fst er) (snd er))))
  | [] => ret df
  end.
Proof.
  intros Hne Hin. unfold float_range_block. rewrite truthy_Some by done.
  rewrite getitem_present by done. rewrite bind_lift_Done.
  rewrite dropna_to_num_map. fold (numeric_values' df c).
  destruct (numeric_values' df c) as [|x e]; [done|].
  cbv zeta. destruct (Qeq_bool _ _); [done|]. cbn [negb].
  unfold st_slider_float. rewrite bind_cons_Done, bind_lift_Done.
  unfold ret, page, result, getitem_mask, with_rows. cbn [fst snd].
  by rewrite between_rows_in_range.
Qed.


End RangeBlocks.

(** ** Sorting the options *)

Lemma sorted_insert_perm (x : cell) (l r : list cell) :
  sorted_insert x l = Done r -> r ≡ₚ x :: l.
Proof.
  revert r. induction l as [|y l IH]; intros r; simpl.
  - by intros [= <-].
  - destruct (cell_lt x y) as [[|]| |e]; simpl; try discriminate.
    + by intros [= <-].
    + destruct (sorted_insert x l) as [r'| |e]; simpl; try discriminate.
      intros [= <-]. rewrite (IH r' eq_refl). apply Permutation_swap.
Qed.

Lemma sorted_perm (l r : list cell) : sorted l = Done r -> r ≡ₚ l.
Proof.
  revert r. induction l as [|x l IH]; intros r; simpl.
  - by intros [= <-].
  - destruct (sorted l) as [r'| |e]; simpl; try discriminate.
    intros H. apply sorted_insert_perm in H. rewrite H. by rewrite (IH r' eq_refl).
Qed.




Lemma sorted_insert_outcome (x : cell) (l : list cell) :
  (exists r, sorted_insert x l = Done r) \/ sorted_insert x l = Raised TypeError.
Proof.
  induction l as [|y l IH]; simpl; [eauto|].
  destruct (cell_lt x y) as [[|]| |e] eqn:E; simpl; eauto.
  - destruct IH as [[r ->]| ->]; simpl; eauto.
  - destruct x, y; discriminate.
  - right. destruct x, y; simpl in E; congruence.
Qed.

Lemma sorted_outcome (l : list cell) :
  (exists r, sorted l = Done r) \/ sorted l = Raised TypeError.
Proof.
  induction l as [|x l IH]; simpl; [eauto|].
  destruct IH as [[r ->]| ->]; simpl; [apply sorted_insert_outcome | eauto].
Qed.

(** Conversely, a series without missing values that [sorted] orders holds
    numbers only or texts only. *)
Lemma sorted_Done_uniform (l r : list cell) :
  sorted l = Done r ->
  Forall (fun c => c <> Missing) l ->
  all_numbers l \/ all_texts l.
Proof.
  revert r. induction l as [|x l IH]; intros r Hs Hl.
  - left. constructor.
  - apply Forall_cons in Hl as [Hx Hl]. simpl in Hs.
    destruct (sorted l) as [r'| |e] eqn:Hr'; simpl in Hs; try discriminate.
    pose proof (sorted_perm _ _ Hr') as Hperm.
    destruct r' as [|y r'].
    + apply Permutation_nil_l in Hperm. subst l.
      destruct x as [q|t|]; [left|right|done]; repeat constructor; eauto.
    + assert (y ∈ l) as Hy by (rewrite <- Hperm; apply list_elem_of_here).
      assert (exists b, cell_lt x y = Done b) as [b Hb].
      { simpl in Hs. destruct (cell_lt x y) as [b| |e]; try discriminate. eauto. }
      destruct (IH _ eq_refl Hl) as [Hn|Ht].
      * left. constructor; [|done].
        unfold all_numbers in Hn. rewrite Forall_forall in Hn.
        destruct (Hn y Hy) as [q ->]. destruct x; [eauto | discriminate | done].
      * right. constructor; [|done].
        unfold all_texts in Ht. rewrite Forall_forall in Ht.
        destruct (Ht y Hy) as [t ->]. destruct x; [discriminate | eauto | done].
Qed.




Example mixed_area_column_raises :
  sorted (unique (dropna_cells [Text "Centro"; Num 20121; Missing]))
  = Raised TypeError.
Proof. reflexivity. Qed.

(** ** Bounds of a numeric column *)

Lemma Qmin_b_cases (x y : Q) :
  (Qmin_b x y = x /\ (x <= y)%Q) \/ (Qmin_b x y = y /\ (y <= x)%Q).
Proof.
  unfold Qmin_b. destruct (Qle_bool x y) eqn:E.
  - left. split; [done|]. by apply Qle_bool_iff.
  - right. split; [done|]. apply Qlt_le_weak, Qlt_bool_iff.
    unfold Qlt_bool. by rewrite E.
Qed.

Lemma Qmax_b_cases (x y : Q) :
  (Qmax_b x y = y /\ (x <= y)%Q) \/ (Qmax_b x y = x /\ (y <= x)%Q).
Proof.
  unfold Qmax_b. destruct (Qle_bool x y) eqn:E.
  - left. split; [done|]. by apply Qle_bool_iff.
  - right. split; [done|]. apply Qlt_le_weak, Qlt_bool_iff.
    unfold Qlt_bool. by rewrite E.
Qed.

(** [series_min] is a value of the series and a lower bound of it. *)
Lemma series_min_spec (x : Q) (v : list Q) :
  series_min x v ∈ x :: v /\ forall y, y ∈ x :: v -> (series_min x v <= y)%Q.
Proof.
  unfold series_min. revert x. induction v as [|z v IH]; intros x; simpl.
  - split; [apply list_elem_of_singleton; done|].
    intros y Hy. apply list_elem_of_singleton in Hy as ->. apply Qle_refl.
  - destruct (IH (Qmin_b x z)) as [Hin Hle]. split.
    + apply elem_of_cons in Hin as [Hin|Hin].
      * rewrite Hin. destruct (Qmin_b_cases x z) as [[-> _]|[-> _]].
        -- apply elem_of_cons. by left.
        -- apply elem_of_cons. right. apply elem_of_cons. by left.
      * apply elem_of_cons. right. apply elem_of_cons. by right.
    + intros y Hy.
      assert (fold_left Qmin_b v (Qmin_b x z) <= Qmin_b x z)%Q as Hm.
      { apply Hle. apply elem_of_cons. by left. }
      apply elem_of_cons in Hy as [->|Hy]; [|apply elem_of_cons in Hy as [->|Hy]].
      * eapply Qle_trans; [exact Hm|].
        destruct (Qmin_b_cases x z) as [[-> ?]|[-> ?]]; [apply Qle_refl | done].
      * eapply Qle_trans; [exact Hm|].
        destruct (Qmin_b_cases x z) as [[-> ?]|[-> ?]]; [done | apply Qle_refl].
      * apply Hle. apply elem_of_cons. by right.
Qed.

(** [series_max] is a value of the series and an upper bound of it. *)
Lemma series_max_spec (x : Q) (v : list Q) :
  series_max x v ∈ x :: v /\ forall y, y ∈ x :: v -> (y <= series_max x v)%Q.
Proof.
  unfold series_max. revert x. induction v as [|z v IH]; intros x; simpl.
  - split; [apply list_elem_of_singleton; done|].
    intros y Hy. apply list_elem_of_singleton in Hy as ->. apply Qle_refl.
  - destruct (IH (Qmax_b x z)) as [Hin Hle]. split.
    + apply elem_of_cons in Hin as [Hin|Hin].
      * rewrite Hin. destruct (Qmax_b_cases x z) as [[-> _]|[-> _]].
        -- apply elem_of_cons. right. apply elem_of_cons. by left.
        -- apply elem_of_cons. by left.
      * apply elem_of_cons. right. apply elem_of_cons. by right.
    + intros y Hy.
      assert (Qmax_b x z <= fold_left Qmax_b v (Qmax_b x z))%Q as Hm.
      { apply Hle. apply elem_of_cons. by left. }
      apply elem_of_cons in Hy as [->|Hy]; [|apply elem_of_cons in Hy as [->|Hy]].
      * eapply Qle_trans; [|exact Hm].
        destruct (Qmax_b_cases x z) as [[-> ?]|[-> ?]]; [done | apply Qle_refl].
      * eapply Qle_trans; [|exact Hm].
        destruct (Qmax_b_cases x z) as [[-> ?]|[-> ?]]; [apply Qle_refl | done].
      * apply Hle. apply elem_of_cons. by right.
Qed.

Lemma py_int_Qeq (a b : Q) : (a == b)%Q -> py_int a = py_int b.
Proof.
  unfold Qeq, py_int. intros H.
  rewrite <- (Z.quot_mul_cancel_r (Qnum a) (Z.pos (Qden a)) (Z.pos (Qden b)))
    by done.
  rewrite <- (Z.quot_mul_cancel_r (Qnum b) (Z.pos (Qden b)) (Z.pos (Qden a)))
    by done.
  rewrite H. f_equal. lia.
Qed.

(** [py_int] truncates towards zero. *)
Lemma py_int_towards_zero (q : Q) :
  ((0 <= q)%Q -> (inject_Z (py_int q) <= q)%Q /\ (q < inject_Z (py_int q + 1))%Q) /\
  ((q <= 0)%Q -> (q <= inject_Z (py_int q))%Q /\ (inject_Z (py_int q - 1) < q)%Q).
Proof.
  destruct q as [n d]. unfold py_int, Qle, Qlt. simpl.
  rewrite !Z.mul_1_r. split; intros H.
  - pose proof (Z.mul_quot_le n (Z.pos d) H ltac:(done)).
    pose proof (Z.mul_succ_quot_gt n (Z.pos d) H ltac:(done)). lia.
  - pose proof (Z.mul_quot_ge n (Z.pos d) H ltac:(done)).
    pose proof (Z.mul_pred_quot_lt n (Z.pos d) H ltac:(done)). lia.
Qed.

(** [py_int] keeps the order. *)
Lemma py_int_mono (a b : Q) : (a <= b)%Q -> py_int a <= py_int b.
Proof.
  intros Hab.
  destruct (Qlt_le_dec a 0) as [Ha|Ha]; destruct (Qlt_le_dec b 0) as [Hb|Hb].
  - destruct (proj2 (py_int_towards_zero a) (Qlt_le_weak _ _ Ha)) as [_ H1].
    destruct (proj2 (py_int_towards_zero b) (Qlt_le_weak _ _ Hb)) as [H2 _].
    assert (inject_Z (py_int a - 1) < inject_Z (py_int b))%Q as H.
    { eapply Qlt_le_trans; [exact H1|]. by eapply Qle_trans. }
    rewrite <- Zlt_Qlt in H. lia.
  - destruct (proj2 (py_int_towards_zero a) (Qlt_le_weak _ _ Ha)) as [_ H1].
    destruct (proj1 (py_int_towards_zero b) Hb) as [_ H2].
    assert (inject_Z (py_int a - 1) < inject_Z 0)%Q as H3.
    { eapply Qlt_trans; [exact H1 | exact Ha]. }
    assert (inject_Z 0 < inject_Z (py_int b + 1))%Q as H4.
    { eapply Qle_lt_trans; [exact Hb | exact H2]. }
    rewrite <- Zlt_Qlt in H3, H4. lia.
  - exfalso. apply (Qlt_not_le _ _ Hb). by eapply Qle_trans.
  - destruct (proj1 (py_int_towards_zero a) Ha) as [H1 _].
    destruct (proj1 (py_int_towards_zero b) Hb) as [_ H2].
    assert (inject_Z (py_int a) < inject_Z (py_int b + 1))%Q as H.
    { eapply Qle_lt_trans; [exact H1|]. by eapply Qle_lt_trans. }
    rewrite <- Zlt_Qlt in H. lia.
Qed.

(** ** The area constraint *)

Lemma elem_of_rows_among (df : DataFrame) (c : string) (selected : list cell)
    (r : list cell) :
  r ∈ rows_among df c selected <->
  r ∈ rows df /\ exists y, y ∈ selected /\ cell_eqb (row_value df c r) y = true.
Proof.
  unfold rows_among. rewrite list_elem_of_In, filter_In, <- list_elem_of_In.
  apply and_iff_compat_l. rewrite existsb_exists.
  split; intros (y & Hy & E); exists y; split; try done; by apply list_elem_of_In.
Qed.

(** The area block either shows its multiselect or stops on the
    [TypeError] of [sorted]; it shows it whenever the column sorts. *)
Lemma area_block_outcome (u : user) (df : DataFrame) (c : string) :
  resolve df area = Some c ->
  (exists areas selected view,
     page (area_block u (Some c) df) = [(Sidebar, Multiselect "Area" areas selected)] /\
     result (area_block u (Some c) df) = Done view) \/
  area_block u (Some c) df = ([], Raised TypeError).
Proof.
  intros Hr. apply resolve_bound in Hr as [Hin Hne].
  rewrite area_block_bound by done.
  destruct (sorted_outcome (unique (dropna_cells (map (row_value df c) (rows df)))))
    as [[areas ->]| ->]; [left|by right].
  eexists _, _, _. split; reflexivity.
Qed.

(** C2. For every table with a bound area column, when the multiselect
    comes back empty the area constraint keeps the table as it is, and when
    it comes back with values it keeps exactly the rows whose area value is
    one of them. *)
Theorem area_constraint
    (u : user) (df : DataFrame) (c : string) (areas selected : list cell) :
  resolve df area = Some c ->
  page (area_block u (Some c) df) = [(Sidebar, Multiselect "Area" areas selected)] ->
  (selected = [] -> result (area_block u (Some c) df) = Done df) /\
  (selected <> [] ->
   result (area_block u (Some c) df) = Done (with_rows df (rows_among df c selected))) /\
  (forall r,
     r ∈ rows_among df c selected <->
     r ∈ rows df /\ exists y, y ∈ selected /\ cell_eqb (row_value df c r) y = true).
Proof.
  intros Hr Hpage. apply resolve_bound in Hr as [Hin Hne].
  rewrite area_block_bound in Hpage |- * by done.
  destruct (sorted _) as [areas'| |e]; [|discriminate..].
  cbv zeta in Hpage |- *. unfold page, result in *. cbn [fst snd] in *.
  injection Hpage as -> Hsel. rewrite Hsel.
  split; [|split].
  - by intros ->.
  - intros Hsome. by destruct selected.
  - apply elem_of_rows_among.
Qed.

Lemma area_constraint_witness :
  result (area_block clears_areas (Some "Area") scenario) = Done scenario /\
  result (area_block picks_area_X (Some "Area") scenario)
  = Done (frame ["Area"; "Bedroom"; "price"] [[Text "X"; Num 2; Num 500000]] eq_refl).
Proof.
  split.
  - apply (area_constraint clears_areas scenario "Area" [Text "X"; Text "Y"] []);
      reflexivity.
  - destruct (area_constraint picks_area_X scenario "Area" [Text "X"; Text "Y"]
                [Text "X"] eq_refl eq_refl) as (_ & H & _).
    rewrite H; [reflexivity | discriminate].
Defined.

(** ** The range constraints *)



(** C6. For every bound numeric role, when the least and the greatest of
    the coerced values of the column are equal, the block shows no slider
    and applies no constraint: the table passes unchanged. *)
Theorem zero_width_range_omitted
    (to_numeric_text : string -> option Q) (u : user) (df : DataFrame)
    (c : string) (x : Q) (v : list Q) :
  c <> EmptyString -> c ∈ columns df ->
  numeric_values to_numeric_text df c = x :: v ->
  (series_min x v == series_max x v)%Q ->
  bedroom_block to_numeric_text u (Some c) df = ([], Done df) /\
  energy_block to_numeric_text u (Some c) df = ([], Done df) /\
  transport_block to_numeric_text u (Some c) df = ([], Done df).
Proof.
  intros Hne Hin Hv Heq. unfold energy_block, transport_block.
  rewrite bedroom_block_bound, !float_range_block_bound by done.
  rewrite Hv. cbv zeta.
  rewrite (py_int_Qeq _ _ Heq), Z.eqb_refl.
  apply Qeq_bool_iff in Heq. by rewrite Heq.
Qed.

Lemma zero_width_range_omitted_witness :
  let df := frame ["beds"; "energy"] [[Num 2; Num 7]; [Text "2.0"; Missing]] eq_refl in
  bedroom_block decimal_text untouched (Some "beds") df = ([], Done df) /\
  energy_block decimal_text untouched (Some "energy") df = ([], Done df).
Proof.
  intros df. split.
  - apply (zero_width_range_omitted decimal_text untouched df "beds" 2 [20 # 10]%Q);
      [discriminate | apply list_elem_of_here | reflexivity | reflexivity].
  - apply (zero_width_range_omitted decimal_text untouched df "energy" 7 []);
      [discriminate | apply list_elem_of_further, list_elem_of_here
      | reflexivity | reflexivity].
Defined.



(** ** The whole sidebar *)

Lemma row_value_columns (d1 d2 : DataFrame) (c : string) (r : list cell) :
  columns d1 = columns d2 -> row_value d1 c r = row_value d2 c r.
Proof. intros H. unfold row_value. by rewrite H. Qed.

Lemma numeric_values_elem (to_numeric_text : string -> option Q) (df : DataFrame)
    (c : string) (q : Q) :
  q ∈ numeric_values to_numeric_text df c <->
  exists r, r ∈ rows df /\ coerce to_numeric_text (row_value df c r) = Some q.
Proof. unfold numeric_values. rewrite list_elem_of_omap. naive_solver. Qed.

(** The numbers of a column in a view are numbers of the column in the
    table. *)
Lemma numeric_values_view (to_numeric_text : string -> option Q)
    (df view : DataFrame) (c : string) (q : Q) :
  columns view = columns df -> rows view `sublist_of` rows df ->
  q ∈ numeric_values to_numeric_text view c ->
  q ∈ numeric_values to_numeric_text df c.
Proof.
  intros Hcols Hsub Hq. apply numeric_values_elem in Hq as (r & Hr & Hq).
  apply numeric_values_elem. exists r. split; [by eapply elem_of_sublist|].
  by rewrite <- (row_value_columns view df).
Qed.

Lemma bind_Done_inv {A B : Type} (m : Script A) (f : A -> Script B) (b : B) :
  result (bind m f) = Done b ->
  exists a, result m = Done a /\ result (f a) = Done b /\
            page (bind m f) = (page m ++ page (f a))%list.
Proof.
  destruct m as [p [a| |e]]; simpl; try discriminate.
  intros H. exists a. unfold page, result in *. by destruct (f a).
Qed.

Lemma area_block_sublist (u : user) (col : option string) (df view : DataFrame) :
  result (area_block u col df) = Done view ->
  columns view = columns df /\ rows view `sublist_of` rows df /\
  (Forall (fun el => constrains (snd el) = false) (page (area_block u col df)) ->
   view = df).
Proof.
  destruct (truthy col) as [c|] eqn:E.
  - apply truthy_inv in E as [-> Hne].
    destruct (decide (c ∈ columns df)) as [Hin|Hnin].
    + rewrite area_block_bound by done.
      destruct (sorted _) as [areas| |e]; [|discriminate..].
      cbv zeta. unfold page, result. cbn [fst snd].
      destruct (multiselect_state _ _ _ _) as [|y sel].
      * by intros [= <-].
      * intros [= <-]. split; [done|]. split; [apply filter_sublist_of|].
        intros H. apply Forall_cons in H as [H _]. discriminate H.
    + unfold area_block. rewrite truthy_Some by done.
      rewrite getitem_absent by done. discriminate.
  - rewrite area_block_unbound by done. by intros [= <-].
Qed.

Section Sidebar.

Variable to_numeric_text : string -> option Q.

Local Abbreviation bedroom_block' := (bedroom_block to_numeric_text).
Local Abbreviation float_range_block' := (float_range_block to_numeric_text).
Local Abbreviation sidebar_filters' := (sidebar_filters to_numeric_text).

Lemma bedroom_block_sublist (u : user) (col : option string) (df view : DataFrame) :
  result (bedroom_block' u col df) = Done view ->
  columns view = columns df /\ rows view `sublist_of` rows df /\
  (Forall (fun el => constrains (snd el) = false) (page (bedroom_block' u col df)) ->
   view = df).
Proof.
  destruct (truthy col) as [c|] eqn:E.
  - apply truthy_inv in E as [-> Hne].
    destruct (decide (c ∈ columns df)) as [Hin|Hnin].
    + rewrite bedroom_block_bound by done.
      destruct (numeric_values _ _ _) as [|x b]; [by intros [= <-]|].
      cbv zeta. destruct (_ =? _); [by intros [= <-]|].
      destruct (_ && _); [|discriminate].
      unfold page, result. cbn [fst snd]. intros [= <-].
      split; [done|]. split; [apply filter_sublist_of|].
      intros H. apply Forall_cons in H as [H _]. discriminate H.
    + unfold bedroom_block. rewrite truthy_Some by done.
      rewrite getitem_absent by done. discriminate.
  - rewrite (proj1 (range_block_unbound to_numeric_text EmptyString u col df E)).
    by intros [= <-].
Qed.

Lemma float_range_block_sublist (label : string) (u : user) (col : option string)
    (df view : DataFrame) :
  result (float_range_block' label u col df) = Done view ->
  columns view = columns df /\ rows view `sublist_of` rows df /\
  (Forall (fun el => constrains (snd el) = false)
     (page (float_range_block' label u col df)) ->
   view = df).
Proof.
  destruct (truthy col) as [c|] eqn:E.
  - apply truthy_inv in E as [-> Hne].
    destruct (decide (c ∈ columns df)) as [Hin|Hnin].
    + rewrite float_range_block_bound by done.
      destruct (numeric_values _ _ _) as [|x b]; [by intros [= <-]|].
      cbv zeta. destruct (Qeq_bool _ _); [by intros [= <-]|].
      unfold page, result. cbn [fst snd]. intros [= <-].
      split; [done|]. split; [apply filter_sublist_of|].
      intros H. apply Forall_cons in H as [H _]. discriminate H.
    + unfold float_range_block. rewrite truthy_Some by done.
      rewrite getitem_absent by done. discriminate.
  - rewrite (proj2 (range_block_unbound to_numeric_text label u col df E)).
    by intros [= <-].
Qed.

(** A run of the sidebar that ends well is a run of its four blocks, one
    after the other, each on the view the one before left. *)
Lemma sidebar_filters_Done (u : user) (b : bindings) (df view : DataFrame) :
  result (sidebar_filters' u b df) = Done view ->
  exists f1 f2 f3,
    result (area_block u (area_col b) df) = Done f1 /\
    result (bedroom_block' u (bed_col b) f1) = Done f2 /\
    result (float_range_block' "Energy_score range" u (energy_col b) f2) = Done f3 /\
    result (float_range_block' "Transport range (optional)" u (transport_col b) f3)
    = Done view /\
    page (sidebar_filters' u b df)
    = ((Sidebar, Header "Filters")
       :: page (area_block u (area_col b) df)
       ++ page (bedroom_block' u (bed_col b) f1)
       ++ page (float_range_block' "Energy_score range" u (energy_col b) f2)
       ++ page (float_range_block' "Transport range (optional)" u
                  (transport_col b) f3))%list.
Proof.
  unfold sidebar_filters, energy_block, transport_block. intros H.
  apply bind_Done_inv in H as ([] & _ & H & ->).
  apply bind_Done_inv in H as (f1 & H1 & H & ->).
  apply bind_Done_inv in H as (f2 & H2 & H & ->).
  apply bind_Done_inv in H as (f3 & H3 & H & ->).
  apply bind_Done_inv in H as (f4 & H4 & H & ->).
  injection H as <-. exists f1, f2, f3.
  repeat (split; [done|]). simpl. by rewrite app_nil_r.
Qed.

End Sidebar.

Section SidebarRuns.

Variable to_numeric_text : string -> option Q.

Local Abbreviation bedroom_block' := (bedroom_block to_numeric_text).
Local Abbreviation float_range_block' := (float_range_block to_numeric_text).
Local Abbreviation sidebar_filters' := (sidebar_filters to_numeric_text).





End SidebarRuns.



(** ** Missing files *)

Lemma float_of_int_outcome (n : Z) :
  (exists f, float_of_int n = Done f) \/ float_of_int n = Raised OverflowError.
Proof. unfold float_of_int. destruct (_ <=? _); eauto. Qed.

Lemma bind_Done_eq {A B : Type} (m : Script A) (f : A -> Script B) (a : A) :
  result m = Done a -> bind m f = ((page m ++ page (f a))%list, result (f a)).
Proof.
  destruct m as [p o]. unfold page, result. simpl. intros ->. by destruct (f a).
Qed.

Lemma result_emit (c : container) (w : widget) : result (emit c w) = Done tt.
Proof. done. Qed.

Lemma result_lift {A : Type} (o : outcome A) : result (lift o) = o.
Proof. done. Qed.

Section Script.

Variable to_numeric_text : string -> option Q.
Variable series_mean : list Q -> pyfloat.
Variable series_median : list Q -> pyfloat.
Variable value_counts : list Q -> nat -> outcome histogram.
Variable float_of_text : string -> option pyfloat.

Local Abbreviation metrics_block' := (metrics_block float_of_text).
Local Abbreviation dashboard' :=
  (dashboard to_numeric_text series_mean series_median value_counts float_of_text).
Local Abbreviation explore_tab' :=
  (explore_tab to_numeric_text series_mean series_median value_counts).

Lemma metrics_block_absent :
  metrics_block' Absent
  = ((no_data_kpis
      ++ [(TabModel,
           InfoBox "Create model_metrics.json in your notebook to show metrics here.")])%list,
     Done tt).
Proof. reflexivity. Qed.

Lemma metrics_block_unreadable (ex : exn) :
  metrics_block' (Unreadable ex)
  = ((no_data_kpis
      ++ [(TabModel, ExceptionWarning "Couldn't read model_metrics.json: " ex)])%list,
     Done tt).
Proof. reflexivity. Qed.

Lemma read_field_outcome (j : json) (key : string) :
  (exists q, obind (dict_get j key) (py_float float_of_text) = Done q) \/
  (exists ex, obind (dict_get j key) (py_float float_of_text) = Raised ex).
Proof.
  destruct j; simpl; eauto.
  destruct (default (JInt 0) (assoc_last key members None)); simpl; eauto.
  - destruct (float_of_int_outcome n) as [[f ->]| ->]; eauto.
  - destruct (float_of_text s); eauto.
Qed.

(** The block shows the three numbers, or the three em-dashes and one
    message; it raises nothing. *)
Lemma metrics_block_cases (f : file json) :
  (exists rmse mae r2,
     metrics_block' f
     = ([ (MetricCol 1, Metric "RMSE" (PyFormat.format_float false 4 rmse));
          (MetricCol 2, Metric "MAE" (PyFormat.format_float false 4 mae));
          (MetricCol 3, Metric "R²" (PyFormat.format_float false 4 r2));
          (TabModel, Caption "Metrics loaded from model_metrics.json") ],
        Done tt)) \/
  (exists message,
     metrics_block' f = ((no_data_kpis ++ [(TabModel, message)])%list, Done tt)).
Proof.
  destruct f as [|ex|j]; [right; eauto | right; eauto |].
  unfold metrics_block. cbn [path_exists read_file].
  rewrite bind_lift_Done.
  destruct (read_field_outcome j "rmse") as [[rmse ->]|[ex ->]]; [|right; eauto].
  rewrite bind_lift_Done.
  destruct (read_field_outcome j "mae") as [[mae ->]|[ex ->]]; [|right; eauto].
  rewrite bind_lift_Done.
  destruct (read_field_outcome j "r2") as [[r2 ->]|[ex ->]]; [|right; eauto].
  rewrite bind_lift_Done. left. exists rmse, mae, r2. reflexivity.
Qed.

Lemma metrics_block_returns (f : file json) : result (metrics_block' f) = Done tt.
Proof.
  destruct (metrics_block_cases f) as [(? & ? & ? & ->)|(? & ->)]; reflexivity.
Qed.

Lemma explore_tab_with_metrics (e : env) (f : file json) :
  explore_tab' (with_metrics e f) = explore_tab' e.
Proof. reflexivity. Qed.

Lemma shap_section_with_metrics (e : env) (f : file json) :
  shap_section (with_metrics e f) = shap_section e.
Proof. reflexivity. Qed.

(** Without the dataset file the script shows the error and stops. *)
Lemma dashboard_without_data (e : env) :
  data_file e = Absent ->
  dashboard' e
  = ([ (Main, PageConfig "Milan Housing Dashboard" "wide");
       (Main, Title "🏙️ Milan Housing Dashboard");
       (Main, Caption "Explore listings + map + model metrics + SHAP explainability");
       (Main, ErrorBox ("❌ data file not found: " ++ DATA_PATH e)) ],
     Stopped).
Proof. intros H. unfold dashboard. rewrite H. reflexivity. Qed.

(** The Model tab: its heading, the metrics block, which raises nothing,
    and the three SHAP tabs. *)
Lemma model_tab_eq (e : env) :
  model_tab float_of_text e
  = (((TabModel, Subheader "🤖 Model results (XGBoost)")
      :: (TabModel, Columns 3)
      :: page (metrics_block' (metrics_file e))
      ++ (TabModel, Markdown "---")
      :: (TabModel, Subheader "🔎 SHAP (Explainability)")
      :: (TabModel, Tabs ["Summary bar"; "Beeswarm"; "Dependence (transport)"])
      :: page (shap_section e))%list,
     result (shap_section e)).
Proof.
  unfold model_tab. fold (shap_section e).
  rewrite (bind_Done_eq (emit TabModel (Subheader _)) _ tt eq_refl).
  rewrite (bind_Done_eq (emit TabModel (Columns 3)) _ tt eq_refl).
  rewrite (bind_Done_eq _ _ _ (metrics_block_returns (metrics_file e))).
  rewrite (bind_Done_eq (emit TabModel (Markdown _)) _ tt eq_refl).
  rewrite (bind_Done_eq (emit TabModel (Subheader _)) _ tt eq_refl).
  rewrite (bind_Done_eq (emit TabModel (Tabs _)) _ tt eq_refl).
  unfold emit, page. cbn [fst app]. reflexivity.
Qed.

(** A run that reaches its end does so for every state of the metrics
    file, with the same page around the metrics block. *)
Lemma dashboard_around_metrics (e : env) :
  result (dashboard' e) = Done tt ->
  exists before after,
    forall f,
      dashboard' (with_metrics e f)
      = ((before ++ page (metrics_block' f) ++ after)%list, Done tt).
Proof.
  unfold dashboard. intros H.
  apply bind_Done_inv in H as ([] & H1 & H & _).
  apply bind_Done_inv in H as ([] & H2 & H & _).
  apply bind_Done_inv in H as ([] & H3 & H & _).
  apply bind_Done_inv in H as ([] & H4 & H & _).
  apply bind_Done_inv in H as (df & H5 & H & _).
  cbv zeta in H.
  apply bind_Done_inv in H as (filtered & H6 & H & _).
  apply bind_Done_inv in H as ([] & H7 & H & _).
  apply bind_Done_inv in H as ([] & H8 & H & _).
  apply bind_Done_inv in H as ([] & H9 & H & _).
  apply bind_Done_inv in H as ([] & H10 & H & _).
  apply bind_Done_inv in H as ([] & H11 & H & _).
  apply bind_Done_inv in H as ([] & H12 & _).
  rewrite model_tab_eq in H12. unfold result at 1 in H12. cbn [snd] in H12.
  exists
    ((Main, PageConfig "Milan Housing Dashboard" "wide")
     :: (Main, Title "🏙️ Milan Housing Dashboard")
     :: (Main, Caption "Explore listings + map + model metrics + SHAP explainability")
     :: page (if negb (path_exists (data_file e))
              then emit Main (ErrorBox ("❌ data file not found: " ++ DATA_PATH e));;
                   st_stop
              else ret tt)
     ++ page (load_data (data_file e))
     ++ page (sidebar_filters to_numeric_text (visitor e) (detect df) df)
     ++ (Sidebar, Markdown "---")
     :: (Sidebar, Metric "Rows after filters"
                    (PyFormat.format_int_commas (length (rows filtered))))
     :: (Sidebar, DownloadButton "⬇️ Download filtered data (CSV)" filtered
                    "milan_filtered.csv" "text/csv")
     :: (Main, Tabs ["📊 Explore"; "🤖 Model"; "ℹ️ About"])
     :: page (explore_tab' e df filtered (resolve df price)
                (resolve df price_per_area) (resolve df ln_price))
     ++ [ (TabModel, Subheader "🤖 Model results (XGBoost)");
          (TabModel, Columns 3) ])%list.
  exists
    ((TabModel, Markdown "---")
     :: (TabModel, Subheader "🔎 SHAP (Explainability)")
     :: (TabModel, Tabs ["Summary bar"; "Beeswarm"; "Dependence (transport)"])
     :: page (shap_section e)
     ++ [(TabAbout, Markdown about_text)])%list.
  intros f. rewrite explore_tab_with_metrics, model_tab_eq.
  rewrite shap_section_with_metrics.
  change (DATA_PATH (with_metrics e f)) with (DATA_PATH e).
  cbn [with_metrics data_file visitor metrics_file].
  rewrite (bind_Done_eq _ _ _ H1), (bind_Done_eq _ _ _ H2), (bind_Done_eq _ _ _ H3).
  rewrite (bind_Done_eq _ _ _ H4), (bind_Done_eq _ _ _ H5). cbv zeta.
  rewrite (bind_Done_eq _ _ _ H6), (bind_Done_eq _ _ _ H7), (bind_Done_eq _ _ _ H8).
  rewrite (bind_Done_eq _ _ _ H9), (bind_Done_eq _ _ _ H10), (bind_Done_eq _ _ _ H11).
  rewrite H12.
  unfold about_tab, bind, emit, page. cbn [fst snd].
  f_equal. cbn [app]. repeat (rewrite <- app_assoc; cbn [app]). reflexivity.
Qed.

Lemma metrics_block_malformed (j : json) (key : string) (ex : exn) :
  key ∈ ["rmse"; "mae"; "r2"] ->
  obind (dict_get j key) (py_float float_of_text) = Raised ex ->
  exists ex',
    metrics_block' (Holds j)
    = ((no_data_kpis
        ++ [(TabModel, ExceptionWarning "Couldn't read model_metrics.json: " ex')])%list,
       Done tt).
Proof.
  intros Hkey Hraise. unfold metrics_block.
  cbn [path_exists read_file]. rewrite bind_lift_Done.
  destruct (read_field_outcome j "rmse") as [[rmse H1]|[e1 H1]]; rewrite H1;
    [|eauto].
  rewrite bind_lift_Done.
  destruct (read_field_outcome j "mae") as [[mae H2]|[e2 H2]]; rewrite H2;
    [|eauto].
  rewrite bind_lift_Done.
  destruct (read_field_outcome j "r2") as [[r2 H3]|[e3 H3]]; rewrite H3;
    [|eauto].
  exfalso.
  repeat (apply elem_of_cons in Hkey as [->|Hkey]; [congruence|]).
  by apply elem_of_nil in Hkey.
Qed.

End Script.

(** C8. Without the dataset file the script shows one error and stops:
    nothing after it is rendered.  Without the metrics file, or with one
    that does not parse or does not hold three numbers, the three metric
    KPIs show the em-dash and one message follows, and a run that reaches
    its end renders the same page around the metrics block whatever the
    state of the metrics file. *)
Theorem missing_files_policy
    (to_numeric_text : string -> option Q)
    (series_mean series_median : list Q -> pyfloat)
    (value_counts : list Q -> nat -> outcome histogram)
    (float_of_text : string -> option pyfloat) (e : env) :
  (data_file e = Absent ->
   dashboard to_numeric_text series_mean series_median value_counts float_of_text e
   = ([ (Main, PageConfig "Milan Housing Dashboard" "wide");
        (Main, Title "🏙️ Milan Housing Dashboard");
        (Main, Caption "Explore listings + map + model metrics + SHAP explainability");
        (Main, ErrorBox ("❌ data file not found: " ++ DATA_PATH e)) ],
      Stopped)) /\
  metrics_block float_of_text Absent
  = ((no_data_kpis
      ++ [(TabModel,
           InfoBox "Create model_metrics.json in your notebook to show metrics here.")])%list,
     Done tt) /\
  (forall ex,
     metrics_block float_of_text (Unreadable ex)
     = ((no_data_kpis
         ++ [(TabModel, ExceptionWarning "Couldn't read model_metrics.json: " ex)])%list,
        Done tt)) /\
  (forall j key ex,
     key ∈ ["rmse"; "mae"; "r2"] ->
     obind (dict_get j key) (py_float float_of_text) = Raised ex ->
     exists ex',
       metrics_block float_of_text (Holds j)
       = ((no_data_kpis
           ++ [(TabModel, ExceptionWarning "Couldn't read model_metrics.json: " ex')])%list,
          Done tt)) /\
  (result (dashboard to_numeric_text series_mean series_median value_counts
             float_of_text e) = Done tt ->
   exists before after,
     forall f,
       dashboard to_numeric_text series_mean series_median value_counts
         float_of_text (with_metrics e f)
       = ((before ++ page (metrics_block float_of_text f) ++ after)%list, Done tt)).
Proof.
  split; [apply dashboard_without_data|].
  split; [apply metrics_block_absent|].
  split; [apply metrics_block_unreadable|].
  split; [apply metrics_block_malformed|].
  apply dashboard_around_metrics.
Qed.

Lemma missing_files_policy_witness :
  result (dashboard decimal_text exact_mean exact_median equal_width_bins
            decimal_float empty_install) = Stopped /\
  length (page (dashboard decimal_text exact_mean exact_median equal_width_bins
                  decimal_float empty_install)) = 4%nat /\
  (exists before after,
     forall f,
       dashboard decimal_text exact_mean exact_median equal_width_bins
         decimal_float (with_metrics bare_install f)
       = ((before ++ page (metrics_block decimal_float f) ++ after)%list, Done tt)).
Proof.
  destruct (missing_files_policy decimal_text exact_mean exact_median
              equal_width_bins decimal_float empty_install) as (Hstop & _).
  rewrite (Hstop eq_refl).
  split; [reflexivity|]. split; [reflexivity|].
  apply (missing_files_policy decimal_text exact_mean exact_median
           equal_width_bins decimal_float bare_install).
  vm_compute. reflexivity.
Defined.

(** ** The definitions at work *)

Example format_1234 : PyFormat.format_f true 0 1234 = "1,234".
Proof. reflexivity. Qed.
Example format_0456 : PyFormat.format_f false 3 (456 # 1000) = "0.456".
Proof. reflexivity. Qed.
Example format_million : PyFormat.format_f true 0 (12345675 # 10) = "1,234,568".
Proof. reflexivity. Qed.
Example format_neg : PyFormat.format_f false 3 (-12345 # 10) = "-1234.500".
Proof. reflexivity. Qed.
Example format_half_even : PyFormat.format_f true 0 (25 # 10) = "2".
Proof. reflexivity. Qed.
Example format_small_neg : PyFormat.format_f false 3 (-1 # 10000) = "-0.000".
Proof. reflexivity. Qed.
Example format_len : PyFormat.format_int_commas 1234 = "1,234".
Proof. reflexivity. Qed.
Example format_zero : PyFormat.format_f false 4 0 = "0.0000".
Proof. reflexivity. Qed.
Example format_999 : PyFormat.format_f true 0 (9995 # 10) = "1,000".
Proof. reflexivity. Qed.

(** The end-to-end scenario: with the bedroom slider on [2, 3] the view is
    the first row alone and its median price reads 500,000. *)
Example scenario_bedrooms_2_3 :
  sidebar_filters decimal_text bedrooms_2_3 (detect scenario) scenario
  = ([ (Sidebar, Header "Filters");
       (Sidebar, Multiselect "Area" [Text "X"; Text "Y"] [Text "X"; Text "Y"]);
       (Sidebar, SliderInt "Bedroom range" 2 5 (2, 3)) ],
     Done (frame ["Area"; "Bedroom"; "price"] [[Text "X"; Num 2; Num 500000]] eq_refl)) /\
  safe_median decimal_text exact_median
    (frame ["Area"; "Bedroom"; "price"] [[Text "X"; Num 2; Num 500000]] eq_refl)
    (resolve scenario price)
  = Done "500,000".
Proof. split; reflexivity. Qed.

(** A table whose area column mixes text and numbers stops the sidebar on
    the [TypeError] of [sorted], before any filter. *)
Example mixed_area_column_stops_sidebar :
  let df := frame ["Area"; "price"] [[Text "Centro"; Num 1]; [Num 20121; Num 2]] eq_refl in
  sidebar_filters decimal_text untouched (detect df) df
  = ([(Sidebar, Header "Filters")], Raised TypeError).
Proof. reflexivity. Qed.

(** Untouched widgets still filter: the default selection is the first ten
    areas, and a slider at its full range drops the rows without a number. *)
Example untouched_bedroom_slider_drops_missing :
  let df := frame ["beds"] [[Num 1]; [Missing]; [Num 3]; [Text "two"]] eq_refl in
  result (sidebar_filters decimal_text untouched (detect df) df)
  = Done (frame ["beds"] [[Num 1]; [Num 3]] eq_refl).
Proof. reflexivity. Qed.

(** * Further properties of the script *)

(** ** The view as a conjunction of the controls *)

Lemma filter_all {A : Type} (l : list A) : List.filter (fun _ => true) l = l.
Proof. induction l as [|x l IH]; simpl; [done | by rewrite IH]. Qed.

Lemma filter_twice {A : Type} (f g : A -> bool) (l : list A) :
  List.filter g (List.filter f l) = List.filter (fun x => f x && g x) l.
Proof.
  induction l as [|x l IH]; simpl; [done|].
  destruct (f x); simpl; [destruct (g x)|]; by rewrite IH.
Qed.

Section Conjunction.

Variable to_numeric_text : string -> option Q.
Variable b : bindings.
Variable df : DataFrame.

Local Abbreviation keeps' := (passes_all to_numeric_text b df).

Lemma area_block_keeps (u : user) (input view : DataFrame) :
  columns input = columns df ->
  result (area_block u (area_col b) input) = Done view ->
  rows view = List.filter (keeps' (page (area_block u (area_col b) input))) (rows input).
Proof.
  intros Hcols. destruct (truthy (area_col b)) as [c|] eqn:E.
  - apply truthy_inv in E as [Hcol Hne]. rewrite Hcol.
    destruct (decide (c ∈ columns input)) as [Hin|Hnin].
    + rewrite area_block_bound by done.
      destruct (sorted _) as [areas| |e]; [|discriminate..].
      cbv zeta. unfold page, result. cbn [fst snd].
      destruct (multiselect_state _ _ _ _) as [|y sel]; intros [= <-].
      * by rewrite filter_all.
      * cbn [with_rows rows]. unfold rows_among. apply filter_ext. intros r.
        unfold passes_all. cbn [forallb snd control_keeps]. rewrite Hcol.
        cbn [value_in]. rewrite (row_value_columns input df) by done.
        by rewrite andb_true_r.
    + unfold area_block. rewrite truthy_Some by done.
      rewrite getitem_absent by done. discriminate.
  - rewrite area_block_unbound by done. intros [= <-]. by rewrite filter_all.
Qed.

Lemma bedroom_block_keeps (u : user) (input view : DataFrame) :
  columns input = columns df ->
  result (bedroom_block to_numeric_text u (bed_col b) input) = Done view ->
  rows view
  = List.filter (keeps' (page (bedroom_block to_numeric_text u (bed_col b) input)))
      (rows input).
Proof.
  intros Hcols. destruct (truthy (bed_col b)) as [c|] eqn:E.
  - apply truthy_inv in E as [Hcol Hne]. rewrite Hcol.
    destruct (decide (c ∈ columns input)) as [Hin|Hnin].
    + rewrite bedroom_block_bound by done.
      destruct (numeric_values _ _ _) as [|x v];
        [intros [= <-]; by rewrite filter_all|].
      cbv zeta. destruct (_ =? _); [intros [= <-]; by rewrite filter_all|].
      destruct (_ && _); [|discriminate].
      unfold page, result. cbn [fst snd]. intros [= <-].
      cbn [with_rows rows]. unfold rows_in_range. apply filter_ext. intros r.
      unfold passes_all. cbn [forallb snd control_keeps].
      destruct (slider_int_state _ _ _ _ _) as [lo hi]. rewrite Hcol.
      cbn [value_in fst snd]. rewrite (row_value_columns input df) by done.
      by rewrite andb_true_r.
    + unfold bedroom_block. rewrite truthy_Some by done.
      rewrite getitem_absent by done. discriminate.
  - rewrite (proj1 (range_block_unbound to_numeric_text EmptyString u _ input E)).
    intros [= <-]. by rewrite filter_all.
Qed.

Lemma float_range_block_keeps (label : string) (col : option string) (u : user)
    (input view : DataFrame) :
  columns input = columns df ->
  (forall emin emax lo hi r,
     control_keeps to_numeric_text b df (SliderFloat label emin emax (lo, hi)) r
     = in_range lo hi (coerce to_numeric_text (value_in df col r))) ->
  result (float_range_block to_numeric_text label u col input) = Done view ->
  rows view
  = List.filter (keeps' (page (float_range_block to_numeric_text label u col input)))
      (rows input).
Proof.
  intros Hcols Hkeeps. destruct (truthy col) as [c|] eqn:E.
  - apply truthy_inv in E as [Hcol Hne]. rewrite Hcol in *.
    destruct (decide (c ∈ columns input)) as [Hin|Hnin].
    + rewrite float_range_block_bound by done.
      destruct (numeric_values _ _ _) as [|x v];
        [intros [= <-]; by rewrite filter_all|].
      cbv zeta. destruct (Qeq_bool _ _); [intros [= <-]; by rewrite filter_all|].
      unfold page, result. cbn [fst snd]. intros [= <-].
      cbn [with_rows rows]. unfold rows_in_range. apply filter_ext. intros r.
      unfold passes_all. cbn [forallb snd].
      destruct (slider_float_state _ _ _ _ _) as [lo hi].
      rewrite Hkeeps. cbn [value_in fst snd].
      rewrite (row_value_columns input df) by done.
      by rewrite andb_true_r.
    + unfold float_range_block. rewrite truthy_Some by done.
      rewrite getitem_absent by done. discriminate.
  - rewrite (proj2 (range_block_unbound to_numeric_text label u _ input E)).
    intros [= <-]. by rewrite filter_all.
Qed.

End Conjunction.

(** X1. The view the sidebar hands on holds exactly the rows of the table
    that pass every control shown in the sidebar, in the table's order: the
    constraints combine by logical and, each read on the column its role is
    bound to. *)
Theorem sidebar_view_passes_all
    (to_numeric_text : string -> option Q) (u : user) (b : bindings)
    (df view : DataFrame) :
  result (sidebar_filters to_numeric_text u b df) = Done view ->
  rows view
  = List.filter
      (passes_all to_numeric_text b df (page (sidebar_filters to_numeric_text u b df)))
      (rows df).
Proof.
  intros H.
  apply sidebar_filters_Done in H as (f1 & f2 & f3 & H1 & H2 & H3 & H4 & ->).
  destruct (area_block_sublist _ _ _ _ H1) as (C1 & _).
  destruct (bedroom_block_sublist _ _ _ _ _ H2) as (C2 & _).
  destruct (float_range_block_sublist _ _ _ _ _ _ H3) as (C3 & _).
  rewrite (float_range_block_keeps to_numeric_text b df
             "Transport range (optional)" (transport_col b) u f3 view
             ltac:(congruence) ltac:(reflexivity) H4).
  rewrite (float_range_block_keeps to_numeric_text b df
             "Energy_score range" (energy_col b) u f2 f3
             ltac:(congruence) ltac:(reflexivity) H3).
  rewrite (bedroom_block_keeps to_numeric_text b df u f1 f2 C1 H2).
  rewrite (area_block_keeps to_numeric_text b df u df f1 eq_refl H1).
  rewrite !filter_twice. apply filter_ext. intros r.
  unfold passes_all. cbn [forallb snd control_keeps]. rewrite !forallb_app.
  by rewrite !andb_assoc.
Qed.

Lemma sidebar_view_passes_all_witness :
  rows scenario = [[Text "X"; Num 2; Num 500000]; [Text "Y"; Num 5; Num 15]] /\
  List.filter
    (passes_all decimal_text (detect scenario) scenario
       (page (sidebar_filters decimal_text bedrooms_2_3 (detect scenario) scenario)))
    (rows scenario)
  = [[Text "X"; Num 2; Num 500000]].
Proof.
  split; [reflexivity|].
  rewrite <- (sidebar_view_passes_all decimal_text bedrooms_2_3 (detect scenario)
                scenario
                (frame ["Area"; "Bedroom"; "price"] [[Text "X"; Num 2; Num 500000]]
                   eq_refl) eq_refl).
  reflexivity.
Defined.

(** ** The options of the area multiselect *)

Lemma cell_eqb_refl (x : cell) : cell_eqb x x = true.
Proof.
  destruct x as [q|t|]; simpl; [|apply String.eqb_refl|done].
  apply Qeq_bool_iff. reflexivity.
Qed.

Lemma cell_eqb_sym (x y : cell) : cell_eqb x y = cell_eqb y x.
Proof.
  destruct x as [q|t|], y as [q'|t'|]; simpl; try done.
  - destruct (Qeq_bool q q') eqn:E, (Qeq_bool q' q) eqn:E'; try done.
    + apply Qeq_bool_iff in E. symmetry in E. apply Qeq_bool_iff in E. congruence.
    + apply Qeq_bool_iff in E'. symmetry in E'. apply Qeq_bool_iff in E'. congruence.
  - apply String.eqb_sym.
Qed.

Lemma cell_eqb_trans (x y z : cell) :
  cell_eqb x y = true -> cell_eqb y z = true -> cell_eqb x z = true.
Proof.
  destruct x as [q|t|], y as [q'|t'|], z as [q''|t''|]; simpl; try done.
  - rewrite !Qeq_bool_iff. intros -> ->. reflexivity.
  - rewrite !String.eqb_eq. congruence.
Qed.

Lemma cell_eqb_missing (y : cell) : cell_eqb Missing y = is_missing y.
Proof. by destruct y. Qed.

Lemma existsb_perm {A : Type} (f : A -> bool) (l l' : list A) :
  l ≡ₚ l' -> existsb f l = existsb f l'.
Proof.
  induction 1 as [|x l l' _ IH|x y l|l l' l'' _ IH1 _ IH2]; simpl.
  - done.
  - by rewrite IH.
  - destruct (f x), (f y); done.
  - congruence.
Qed.

Lemma unique_elem (s : list cell) (x : cell) : x ∈ unique s -> x ∈ s.
Proof.
  revert x. induction s as [|c s IH]; intros x; simpl; [done|].
  intros H. apply elem_of_cons in H as [->|H]; [apply list_elem_of_here|].
  apply list_elem_of_further, IH.
  apply list_elem_of_In in H. apply filter_In in H as [H _]. by apply list_elem_of_In.
Qed.

Lemma unique_covers (s : list cell) (x : cell) :
  x ∈ s -> exists y, y ∈ unique s /\ cell_eqb x y = true.
Proof.
  induction s as [|c s IH]; intros H; [by apply elem_of_nil in H|].
  simpl. apply elem_of_cons in H as [->|H].
  - exists c. split; [apply list_elem_of_here | apply cell_eqb_refl].
  - destruct (IH H) as (y & Hy & Hxy).
    destruct (cell_eqb c y) eqn:E.
    + exists c. split; [apply list_elem_of_here|].
      eapply cell_eqb_trans; [exact Hxy|]. by rewrite cell_eqb_sym.
    + exists y. split; [|done]. apply list_elem_of_further.
      apply list_elem_of_In, filter_In. split; [by apply list_elem_of_In|].
      by rewrite E.
Qed.

Lemma existsb_filter_false {A : Type} (f g : A -> bool) (l : list A) :
  existsb f l = false -> existsb f (List.filter g l) = false.
Proof.
  induction l as [|x l IH]; simpl; [done|].
  intros H. apply orb_false_iff in H as [Hx Hl].
  destruct (g x); simpl; [rewrite Hx|]; by apply IH.
Qed.

Lemma all_different_filter (g : cell -> bool) (l : list cell) :
  all_different l = true -> all_different (List.filter g l) = true.
Proof.
  induction l as [|x l IH]; simpl; [done|].
  intros H. apply andb_true_iff in H as [Hx Hl].
  destruct (g x); simpl; [|by apply IH].
  apply andb_true_iff. split; [|by apply IH].
  apply negb_true_iff, existsb_filter_false. by apply negb_true_iff.
Qed.

Lemma unique_all_different (s : list cell) : all_different (unique s) = true.
Proof.
  induction s as [|c s IH]; simpl; [done|].
  apply andb_true_iff. split; [|by apply all_different_filter].
  apply negb_true_iff. clear IH. induction (unique s) as [|y l IH]; simpl; [done|].
  destruct (cell_eqb c y) eqn:E; simpl; [done|]. by rewrite E.
Qed.

Lemma sorted_insert_all_different (x : cell) (l r : list cell) :
  sorted_insert x l = Done r ->
  existsb (cell_eqb x) l = false -> all_different l = true ->
  all_different r = true.
Proof.
  revert r. induction l as [|y l IH]; intros r; simpl.
  - by intros [= <-].
  - destruct (cell_lt x y) as [[|]| |e]; simpl; try discriminate.
    + intros [= <-] Hx Hl. simpl. by rewrite Hx.
    + destruct (sorted_insert x l) as [r'| |e] eqn:Hr'; simpl; try discriminate.
      intros [= <-] Hx Hl. apply orb_false_iff in Hx as [Hxy Hx].
      apply andb_true_iff in Hl as [Hy Hl]. simpl.
      apply andb_true_iff. split; [|by apply IH].
      apply negb_true_iff.
      rewrite (existsb_perm _ _ _ (sorted_insert_perm _ _ _ Hr')). simpl.
      rewrite cell_eqb_sym, Hxy. by apply negb_true_iff.
Qed.

Lemma sorted_all_different (l r : list cell) :
  sorted l = Done r -> all_different l = true -> all_different r = true.
Proof.
  revert r. induction l as [|x l IH]; intros r; simpl.
  - by intros [= <-].
  - destruct (sorted l) as [r'| |e] eqn:Hr'; simpl; try discriminate.
    intros Hins H. apply andb_true_iff in H as [Hx Hl].
    apply (sorted_insert_all_different x r' r Hins); [|by apply IH].
    rewrite (existsb_perm _ _ _ (sorted_perm _ _ Hr')). by apply negb_true_iff.
Qed.

Lemma cell_lt_asym (x y : cell) :
  cell_lt x y = Done true -> cell_lt y x = Done false.
Proof.
  destruct x as [q|t|], y as [q'|t'|]; simpl; try done.
  - intros [= H]. f_equal. apply Qlt_bool_iff in H. apply Qlt_bool_false.
    by apply Qlt_le_weak.
  - intros [= H]. f_equal. unfold String.ltb in *.
    rewrite String.compare_antisym. destruct (String.compare t t'); done.
Qed.

Lemma sorted_insert_ascending (x : cell) (l r : list cell) :
  sorted_insert x l = Done r -> ascending l -> ascending r.
Proof.
  revert r. induction l as [|y l IH]; intros r; simpl sorted_insert.
  - by intros [= <-].
  - destruct (cell_lt x y) as [[|]| |e] eqn:Hxy; simpl; try discriminate.
    + intros [= <-] Hl. split; [by apply cell_lt_asym | done].
    + destruct (sorted_insert x l) as [r'| |e] eqn:Hr'; simpl; try discriminate.
      intros [= <-] Hl.
      assert (ascending l) as Hl' by (destruct l; [done | apply Hl]).
      specialize (IH r' eq_refl Hl').
      destruct l as [|z l].
      * simpl in Hr'. injection Hr' as <-. done.
      * simpl in Hr'. destruct Hl as [Hzy _].
        destruct (cell_lt x z) as [[|]| |e]; simpl in Hr'; try discriminate.
        -- injection Hr' as <-. done.
        -- destruct (sorted_insert x l); simpl in Hr'; try discriminate.
           injection Hr' as <-. done.
Qed.

Lemma sorted_ascending (l r : list cell) : sorted l = Done r -> ascending r.
Proof.
  revert r. induction l as [|x l IH]; intros r; simpl.
  - by intros [= <-].
  - destruct (sorted l) as [r'| |e] eqn:Hr'; simpl; try discriminate.
    intros H. eapply sorted_insert_ascending; [exact H | by apply IH].
Qed.

Lemma dropna_cells_elem (s : list cell) (x : cell) :
  x ∈ dropna_cells s <-> x ∈ s /\ x <> Missing.
Proof.
  unfold dropna_cells. rewrite list_elem_of_In, filter_In, <- list_elem_of_In.
  apply and_iff_compat_l. by destruct x.
Qed.

(** The options a bound area column gives, when they sort. *)
Lemma area_block_options (u : user) (df : DataFrame) (c : string)
    (areas selected : list cell) :
  c <> EmptyString -> c ∈ columns df ->
  page (area_block u (Some c) df) = [(Sidebar, Multiselect "Area" areas selected)] ->
  sorted (unique (dropna_cells (map (row_value df c) (rows df)))) = Done areas /\
  selected
  = multiselect_state u "Area" areas
      (if (10 <? length areas)%nat then take 10 areas else areas).
Proof.
  intros Hne Hin. rewrite area_block_bound by done.
  destruct (sorted _) as [areas'| |e]; [|discriminate..].
  cbv zeta. unfold page. cbn [fst]. intros [= <- <-]. done.
Qed.

(** Every value of the area column that is not missing is equal to an
    option, and every option is a value of the column that is not missing. *)
Lemma area_options_cover (df : DataFrame) (c : string) (areas : list cell) :
  sorted (unique (dropna_cells (map (row_value df c) (rows df)))) = Done areas ->
  (forall r, r ∈ rows df -> row_value df c r <> Missing ->
     exists y, y ∈ areas /\ cell_eqb (row_value df c r) y = true) /\
  (forall y, y ∈ areas -> y <> Missing /\ exists r, r ∈ rows df /\ row_value df c r = y).
Proof.
  intros Hsort. pose proof (sorted_perm _ _ Hsort) as Hperm. split.
  - intros r Hrow Hval.
    destruct (unique_covers (dropna_cells (map (row_value df c) (rows df)))
                (row_value df c r)) as (y & Hy & Hxy).
    { apply dropna_cells_elem. split; [|done]. apply list_elem_of_fmap. eauto. }
    exists y. split; [by rewrite Hperm | done].
  - intros y Hy. rewrite Hperm in Hy. apply unique_elem in Hy.
    apply dropna_cells_elem in Hy as [Hy Hm]. split; [done|].
    apply list_elem_of_fmap in Hy as (r & -> & Hrow). eauto.
Qed.

(** X2. The options of the area multiselect are the values of the area
    column: every value that is not missing is equal to one of the options,
    every option is such a value, no two options are equal, and no option is
    followed by a smaller one. *)
Theorem area_options_are_the_values
    (u : user) (df : DataFrame) (c : string) (areas selected : list cell) :
  resolve df area = Some c ->
  page (area_block u (Some c) df) = [(Sidebar, Multiselect "Area" areas selected)] ->
  (forall r, r ∈ rows df -> row_value df c r <> Missing ->
     exists y, y ∈ areas /\ cell_eqb (row_value df c r) y = true) /\
  (forall y, y ∈ areas -> y <> Missing /\ exists r, r ∈ rows df /\ row_value df c r = y) /\
  all_different areas = true /\
  ascending areas.
Proof.
  intros Hr Hpage. apply resolve_bound in Hr as [Hin Hne].
  destruct (area_block_options _ _ _ _ _ Hne Hin Hpage) as [Hsort _].
  destruct (area_options_cover _ _ _ Hsort) as [Hcover Hopt].
  split; [done|]. split; [done|]. split.
  - apply (sorted_all_different _ _ Hsort), unique_all_different.
  - by apply (sorted_ascending _ _ Hsort).
Qed.

Lemma area_options_are_the_values_witness :
  page (area_block untouched (Some "Area") scenario)
  = [(Sidebar, Multiselect "Area" [Text "X"; Text "Y"] [Text "X"; Text "Y"])] /\
  all_different [Text "X"; Text "Y"] = true /\
  ascending [Text "X"; Text "Y"].
Proof.
  split; [reflexivity|].
  apply (area_options_are_the_values untouched scenario "Area"
           [Text "X"; Text "Y"] [Text "X"; Text "Y"]); reflexivity.
Defined.

Lemma existsb_missing_options (areas : list cell) :
  (forall y, y ∈ areas -> y <> Missing) -> existsb (cell_eqb Missing) areas = false.
Proof.
  induction areas as [|y l IH]; intros H; [done|].
  cbn [existsb]. rewrite cell_eqb_missing, IH.
  - destruct y; try done. exfalso. by apply (H Missing (list_elem_of_here _ _)).
  - intros z Hz. apply H. by apply list_elem_of_further.
Qed.

(** X3. With the multiselect left at its default, the selection is the first
    ten options.  With no option (every area missing) the table passes
    unchanged; with one to ten options the block drops exactly the rows
    whose area is missing. *)
Theorem area_default_selection
    (df : DataFrame) (c : string) (areas selected : list cell) :
  resolve df area = Some c ->
  page (area_block untouched (Some c) df)
  = [(Sidebar, Multiselect "Area" areas selected)] ->
  selected = take 10 areas /\
  (areas = [] -> result (area_block untouched (Some c) df) = Done df) /\
  (areas <> [] -> (length areas <= 10)%nat ->
   result (area_block untouched (Some c) df)
   = Done (with_rows df
             (List.filter (fun r => negb (is_missing (row_value df c r))) (rows df)))).
Proof.
  intros Hr Hpage. apply resolve_bound in Hr as [Hin Hne].
  destruct (area_block_options _ _ _ _ _ Hne Hin Hpage) as [Hsort Hsel].
  cbn [untouched multiselect_state] in Hsel.
  destruct (area_options_cover _ _ _ Hsort) as [Hcover Hopt].
  rewrite area_block_bound by done. rewrite Hsort. cbv zeta.
  cbn [untouched multiselect_state]. rewrite <- Hsel. unfold result. cbn [snd].
  split; [|split].
  - rewrite Hsel. destruct (10 <? length areas)%nat eqn:E; [done|].
    apply Nat.ltb_ge in E. by rewrite take_ge.
  - intros ->. rewrite Hsel. done.
  - intros Hsome Hlen.
    assert (selected = areas) as ->.
    { rewrite Hsel. apply Nat.ltb_ge in Hlen. by rewrite Hlen. }
    destruct areas as [|y l] eqn:Ea; [done|]. rewrite <- Ea in *.
    f_equal. unfold with_rows. f_equal. unfold rows_among.
    apply filter_ext_in. intros r Hrow. apply list_elem_of_In in Hrow.
    destruct (row_value df c r) eqn:Ev.
    + simpl. apply existsb_exists.
      destruct (Hcover r Hrow) as (z & Hz & Hxz); [by rewrite Ev|].
      rewrite Ev in Hxz. exists z. split; [by apply list_elem_of_In | done].
    + simpl. apply existsb_exists.
      destruct (Hcover r Hrow) as (z & Hz & Hxz); [by rewrite Ev|].
      rewrite Ev in Hxz. exists z. split; [by apply list_elem_of_In | done].
    + simpl. apply existsb_missing_options. intros z Hz. by apply Hopt.
Qed.

Lemma area_default_selection_witness :
  let df := frame ["Area"; "price"]
              [[Text "X"; Num 1]; [Missing; Num 2]; [Text "Y"; Num 3]] eq_refl in
  result (area_block untouched (Some "Area") df)
  = Done (frame ["Area"; "price"] [[Text "X"; Num 1]; [Text "Y"; Num 3]] eq_refl).
Proof.
  intros df.
  destruct (area_default_selection df "Area" [Text "X"; Text "Y"] [Text "X"; Text "Y"]
              eq_refl eq_refl) as (_ & _ & H).
  rewrite H; [reflexivity | discriminate | simpl; lia].
Defined.

(** X4. When the bound area column holds both a number and a text, the
    sidebar stops on the [TypeError] of [sorted] with only its header on the
    page: no filter is applied and no view is handed on. *)
Theorem mixed_area_column_raises_type_error
    (to_numeric_text : string -> option Q) (u : user) (df : DataFrame)
    (c : string) (r1 r2 : list cell) (q : Q) (t : string) :
  resolve df area = Some c ->
  r1 ∈ rows df -> row_value df c r1 = Num q ->
  r2 ∈ rows df -> row_value df c r2 = Text t ->
  sidebar_filters to_numeric_text u (detect df) df
  = ([(Sidebar, Header "Filters")], Raised TypeError).
Proof.
  intros Hr H1 V1 H2 V2. unfold sidebar_filters.
  cbn [detect area_col]. rewrite Hr.
  apply resolve_bound in Hr as [Hin Hne].
  rewrite area_block_bound by done.
  destruct (sorted_outcome (unique (dropna_cells (map (row_value df c) (rows df)))))
    as [[areas Hsort]|Hraise]; [exfalso | by rewrite Hraise].
  destruct (area_options_cover _ _ _ Hsort) as [Hcover Hopt].
  destruct (Hcover r1 H1) as (y1 & Hy1 & E1); [by rewrite V1|].
  destruct (Hcover r2 H2) as (y2 & Hy2 & E2); [by rewrite V2|].
  rewrite V1 in E1. rewrite V2 in E2.
  pose proof (sorted_perm _ _ Hsort) as Hperm.
  rewrite Hperm in Hy1, Hy2.
  destruct (sorted_Done_uniform _ _ Hsort) as [Hn|Ht].
  - apply Forall_forall. intros z Hz. apply unique_elem in Hz.
    by apply dropna_cells_elem in Hz as [_ Hz].
  - unfold all_numbers in Hn. rewrite Forall_forall in Hn.
    destruct (Hn _ Hy2) as [q' ->]. discriminate E2.
  - unfold all_texts in Ht. rewrite Forall_forall in Ht.
    destruct (Ht _ Hy1) as [t' ->]. discriminate E1.
Qed.

Lemma mixed_area_column_raises_type_error_witness :
  let df := frame ["Area"; "price"] [[Text "Centro"; Num 1]; [Num 20121; Num 2]]
              eq_refl in
  sidebar_filters decimal_text untouched (detect df) df
  = ([(Sidebar, Header "Filters")], Raised TypeError).
Proof.
  intros df.
  apply (mixed_area_column_raises_type_error decimal_text untouched df "Area"
           [Num 20121; Num 2] [Text "Centro"; Num 1] 20121 "Centro").
  - reflexivity.
  - apply list_elem_of_further, list_elem_of_here.
  - reflexivity.
  - apply list_elem_of_here.
  - reflexivity.
Defined.

(** ** The sliders at their default range *)






(** ** What the KPI texts say *)

Lemma group3_head (c : ascii) (ds : list ascii) :
  exists rest, PyFormat.group3 (c :: ds) = c :: rest.
Proof. simpl. eauto. Qed.

(** A formatted number starts with a minus sign or a digit. *)
Lemma format_f_head (commas : bool) (d : nat) (q : Q) :
  exists ch rest,
    chars (PyFormat.format_f commas d q) = ch :: rest /\
    (ch = "-"%char \/ is_digit ch).
Proof.
  destruct (PyFormatFacts.format_f_spec commas d q)
    as (whole & frac & -> & Hw & Hne & _).
  destruct (Qlt_bool q 0); [simpl; eauto|].
  destruct whole as [|c ds]; [done|].
  apply Forall_cons in Hw as [Hc _]. destruct commas.
  - destruct (group3_head c ds) as [rest ->]. simpl. eauto.
  - simpl. eauto.
Qed.

Lemma format_f_not_em_dash (commas : bool) (d : nat) (q : Q) :
  PyFormat.format_f commas d q <> em_dash.
Proof.
  intros H. destruct (format_f_head commas d q) as (ch & rest & Hch & Hkind).
  rewrite H in Hch. injection Hch as <- _.
  destruct Hkind as [Hm|Hd]; [discriminate Hm | by apply Hd].
Qed.

Lemma format_float_not_em_dash (commas : bool) (d : nat) (f : pyfloat) :
  PyFormat.format_float commas d f <> em_dash.
Proof.
  destruct f as [q| | | |]; cbn [PyFormat.format_float]; try discriminate.
  apply format_f_not_em_dash.
Qed.

Lemma kpi_text_not_em_dash (m : pyfloat) : kpi_text m <> em_dash.
Proof. unfold kpi_text. destruct (float_gt m 10); apply format_float_not_em_dash. Qed.

Section NoData.

Variable to_numeric_text : string -> option Q.
Variable series_mean : list Q -> pyfloat.
Variable series_median : list Q -> pyfloat.

Lemma safe_mean_em_dash (df : DataFrame) (c : string) :
  c <> EmptyString -> c ∈ columns df ->
  safe_mean to_numeric_text series_mean df (Some c) = Done em_dash <->
  numeric_values to_numeric_text df c = [].
Proof.
  intros Hne Hin. rewrite safe_mean_bound by done.
  destruct (numeric_values to_numeric_text df c) as [|x v]; [done|].
  split; [|discriminate]. intros [= H]. exfalso.
  by apply kpi_text_not_em_dash in H.
Qed.

Lemma safe_median_em_dash (df : DataFrame) (c : string) :
  c <> EmptyString -> c ∈ columns df ->
  safe_median to_numeric_text series_median df (Some c) = Done em_dash <->
  numeric_values to_numeric_text df c = [].
Proof.
  intros Hne Hin. rewrite safe_median_bound by done.
  destruct (numeric_values to_numeric_text df c) as [|x v]; [done|].
  split; [|discriminate]. intros [= H]. exfalso.
  by apply kpi_text_not_em_dash in H.
Qed.

End NoData.

(** X8. A KPI shows the em-dash only when there is no data: for a bound
    column, the mean and the median are the em-dash exactly when no value of
    the column coerces to a number, and a text that is a number otherwise. *)
Theorem em_dash_means_no_data
    (to_numeric_text : string -> option Q)
    (series_mean series_median : list Q -> pyfloat)
    (view : DataFrame) (r : role) (c : string) :
  resolve view r = Some c ->
  (safe_mean to_numeric_text series_mean view (Some c) = Done em_dash <->
   forall row, row ∈ rows view ->
               coerce to_numeric_text (row_value view c row) = None) /\
  (safe_median to_numeric_text series_median view (Some c) = Done em_dash <->
   forall row, row ∈ rows view ->
               coerce to_numeric_text (row_value view c row) = None).
Proof.
  intros Hr. apply resolve_bound in Hr as [Hin Hne].
  rewrite safe_mean_em_dash, safe_median_em_dash by done.
  split; apply numeric_values_nil.
Qed.

Lemma em_dash_means_no_data_witness :
  safe_median decimal_text exact_median scenario (Some "price") <> Done em_dash.
Proof.
  destruct (em_dash_means_no_data decimal_text exact_mean exact_median scenario
              price "price" eq_refl) as [_ [H _]].
  intros E. specialize (H E [Text "X"; Num 2; Num 500000] (list_elem_of_here _ _)).
  discriminate H.
Defined.

(** X13. The text of a KPI whose mean is a finite number [m] is an optional
    minus sign, the digits of the whole part (grouped by commas above 10)
    and, up to 10, a point and three digits; read as one number, its digits
    are the magnitude of [m], scaled by 1 or by 1000, to within half a
    unit.  Here [m] is the value pandas returned for the mean, whatever
    rounding went into it. *)
Theorem kpi_text_is_the_rounded_value
    (to_numeric_text : string -> option Q) (series_mean : list Q -> pyfloat)
    (view : DataFrame) (r : role) (c : string) (x : Q) (v : list Q) (m : Q) :
  resolve view r = Some c ->
  numeric_values to_numeric_text view c = x :: v ->
  series_mean (x :: v) = Finite m ->
  let d := if Qlt_bool 10 m then 0%nat else 3%nat in
  exists text whole frac,
    safe_mean to_numeric_text series_mean view (Some c) = Done text /\
    chars text
    = ((if Qlt_bool m 0 then ["-"%char] else [])
       ++ (if Qlt_bool 10 m then PyFormat.group3 whole else whole)
       ++ (if Qlt_bool 10 m then [] else "."%char :: frac))%list /\
    Forall is_digit whole /\ whole <> [] /\
    Forall is_digit frac /\ length frac = d /\
    (Qabs (inject_Z (number_of (whole ++ frac))
           - Qabs m * inject_Z (10 ^ Z.of_nat d)) <= 1 # 2)%Q.
Proof.
  intros Hr Hv Hm d. apply resolve_bound in Hr as [Hin Hne].
  rewrite safe_mean_bound by done. rewrite Hv, Hm.
  unfold kpi_text. cbn [float_gt PyFormat.format_float].
  destruct (PyFormatFacts.format_f_spec (Qlt_bool 10 m) d m)
    as (whole & frac & Hchars & Hw & Hwne & Hf & Hlen & Hnear).
  exists (PyFormat.format_f (Qlt_bool 10 m) d m), whole, frac.
  subst d. destruct (Qlt_bool 10 m); repeat (split; [done|]); done.
Qed.

Lemma kpi_text_is_the_rounded_value_witness :
  exists text whole,
    safe_mean decimal_text exact_mean scenario (Some "price") = Done text /\
    chars text = ([] ++ PyFormat.group3 whole ++ [])%list /\
    Forall is_digit whole.
Proof.
  destruct (kpi_text_is_the_rounded_value decimal_text exact_mean scenario price
              "price" 500000 [15%Q] _ eq_refl eq_refl eq_refl)
    as (text & whole & frac & H1 & H2 & H3 & _).
  exists text, whole. split; [exact H1|]. split; [exact H2 | exact H3].
Defined.

(** ** The row counts *)

Lemma chars_format_int_commas (n : nat) :
  chars (PyFormat.format_int_commas n) = PyFormat.group3 (PyFormat.digits (Z.of_nat n)).
Proof. apply list_ascii_of_string_of_list_ascii. Qed.

Lemma group3_short (ds : list ascii) :
  (length ds <= 3)%nat -> PyFormat.group3 ds = ds.
Proof.
  destruct ds as [|a [|b [|c [|d ds]]]]; simpl; try done. lia.
Qed.

Lemma group3_last_three (pre : list ascii) (a b c : ascii) :
  pre <> [] ->
  PyFormat.group3 (pre ++ [a; b; c])
  = (PyFormat.group3 pre ++ ","%char :: [a; b; c])%list.
Proof.
  induction pre as [|x pre IH]; [done|]. intros _.
  destruct pre as [|y pre].
  - reflexivity.
  - specialize (IH ltac:(done)).
    change ((x :: y :: pre) ++ [a; b; c])%list with (x :: ((y :: pre) ++ [a; b; c]))%list.
    cbn [PyFormat.group3]. rewrite IH. rewrite length_app.
    change (length [a; b; c]) with 3%nat.
    replace ((length (y :: pre) + 3) mod 3)%nat with (length (y :: pre) mod 3)%nat
      by (rewrite <- (Nat.Div0.mod_add (length (y :: pre)) 1 3); f_equal; lia).
    assert ((0 <? length (y :: pre) + 3)%nat = true) as -> by (apply Nat.ltb_lt; lia).
    assert ((0 <? length (y :: pre))%nat = true) as -> by (apply Nat.ltb_lt; simpl; lia).
    cbn [andb]. destruct (_ =? 0)%nat; reflexivity.
Qed.

Lemma digits_fuel_length (fuel : nat) (n : Z) (k : nat) :
  0 <= n < 10 ^ Z.of_nat (S k) ->
  (length (PyFormat.digits_fuel fuel n []) <= S k)%nat.
Proof.
  revert n k. induction fuel as [|fuel IH]; intros n k Hn; [simpl; lia|].
  cbn [PyFormat.digits_fuel]. destruct (n / 10 =? 0) eqn:E; [simpl; lia|].
  apply Z.eqb_neq in E. rewrite PyFormatFacts.digits_fuel_app, length_app. simpl.
  rewrite Nat2Z.inj_succ, Z.pow_succ_r in Hn by lia.
  destruct k as [|k].
  - exfalso. apply E. apply Z.div_small. simpl in Hn. lia.
  - assert (length (PyFormat.digits_fuel fuel (n / 10) []) <= S k)%nat; [|lia].
    apply IH. split; [apply Z.div_pos; lia|].
    apply Z.div_lt_upper_bound; lia.
Qed.

(** X14. A row count is shown by its decimal digits with a comma before
    every group of three: taking the commas out and reading the digits gives
    the count back, a count below 1000 has no comma, and the last three
    digits of a longer one follow a comma. *)
Theorem row_count_text_reads_back (n : nat) :
  number_of (List.filter (fun c => negb (Ascii.eqb c ","))
               (chars (PyFormat.format_int_commas n)))
  = Z.of_nat n /\
  ((n < 1000)%nat -> ","%char ∉ chars (PyFormat.format_int_commas n)) /\
  (forall pre a b c,
     PyFormat.digits (Z.of_nat n) = (pre ++ [a; b; c])%list -> pre <> [] ->
     chars (PyFormat.format_int_commas n)
     = (PyFormat.group3 pre ++ ","%char :: [a; b; c])%list).
Proof.
  rewrite chars_format_int_commas. split; [|split].
  - rewrite PyFormatFacts.group3_digits by apply PyFormatFacts.digits_Forall.
    apply PyFormatFacts.number_of_digits. lia.
  - intros Hn. rewrite group3_short.
    + intros H. pose proof (PyFormatFacts.digits_Forall (Z.of_nat n)) as Hd.
      rewrite Forall_forall in Hd. by apply (PyFormatFacts.not_digit_comma), Hd.
    + apply (digits_fuel_length _ _ 2). change (10 ^ Z.of_nat 3) with 1000. lia.
  - intros pre a b c -> Hpre. by apply group3_last_three.
Qed.

(** ** The metrics document *)

Lemma assoc_last_absent (key : string) (members : list (string * json))
    (found : option json) :
  key ∉ map fst members -> assoc_last key members found = found.
Proof.
  revert found. induction members as [|[k v] members IH]; intros found H; [done|].
  simpl in *. apply not_elem_of_cons in H as [Hk H].
  rewrite IH by done. destruct (String.eqb key k) eqn:E; [|done].
  by apply String.eqb_eq in E.
Qed.

Lemma assoc_last_last (key : string) (v : json) (members rest : list (string * json))
    (found : option json) :
  key ∉ map fst rest ->
  assoc_last key (members ++ (key, v) :: rest) found = Some v.
Proof.
  intros Hrest. revert found.
  induction members as [|[k w] members IH]; intros found; simpl.
  - rewrite String.eqb_refl. by apply assoc_last_absent.
  - apply IH.
Qed.

(** An integer below [2^53] in magnitude converts to itself. *)
Lemma float_of_int_exact (n : Z) :
  exact_as_float n -> float_of_int n = Done (Finite (inject_Z n)).
Proof.
  unfold exact_as_float, float_of_int. intros H.
  assert (Z.log2 (Z.abs n) - 52 <= 0) as Hlog.
  { destruct (Z.eq_dec (Z.abs n) 0) as [->|Hnz]; [done|].
    assert (Z.log2 (Z.abs n) < 53); [|lia].
    apply Z.log2_lt_pow2; lia. }
  rewrite (Z.max_l 0 _ Hlog). change (Z.to_pos (2 ^ 0)) with 1%positive.
  assert (PyFormat.round_half_even (Z.abs n # 1) = Z.abs n) as ->.
  { unfold PyFormat.round_half_even. cbn [Qnum Qden].
    rewrite Z.div_1_r, Z.mod_1_r. reflexivity. }
  rewrite Z.pow_0_r, Z.mul_1_r.
  assert ((2 ^ 1024 <=? Z.abs n) = false) as ->.
  { apply Z.leb_gt. eapply Z.lt_trans; [exact H|]. reflexivity. }
  do 3 f_equal. lia.
Qed.

(** An integer of magnitude [2^1024] or more does not convert. *)
Lemma float_of_int_overflow (n : Z) :
  2 ^ 1024 <= Z.abs n -> float_of_int n = Raised OverflowError.
Proof.
  unfold float_of_int. intros H.
  set (a := Z.abs n) in *.
  assert (0 < a) as Ha.
  { eapply Z.lt_le_trans; [|exact H]. reflexivity. }
  assert (1024 <= Z.log2 a) as Hlog.
  { change 1024 with (Z.log2 (2 ^ 1024)). by apply Z.log2_le_mono. }
  rewrite Z.max_r by lia.
  set (e := Z.log2 a - 52).
  assert (0 < 2 ^ e) as Hpow by (apply Z.pow_pos_nonneg; lia).
  assert (2 ^ 52 <= PyFormat.round_half_even (a # Z.to_pos (2 ^ e))) as Hm.
  { unfold PyFormat.round_half_even. cbn [Qnum Qden].
    rewrite Z2Pos.id by done.
    assert (2 ^ 52 <= a / 2 ^ e) as Hf.
    { apply Z.div_le_lower_bound; [done|].
      rewrite <- Z.pow_add_r by lia.
      replace (e + 52) with (Z.log2 a) by lia.
      by apply Z.log2_spec. }
    destruct (_ ?= _); [destruct (Z.even _)|..]; lia. }
  assert (2 ^ 1024 <= PyFormat.round_half_even (a # Z.to_pos (2 ^ e)) * 2 ^ e) as Hr.
  { etrans; [|apply Z.mul_le_mono_nonneg_r; [lia | exact Hm]].
    rewrite <- Z.pow_add_r by lia. apply Z.pow_le_mono_r; lia. }
  apply Z.leb_le in Hr. by rewrite Hr.
Qed.

Section Metrics.

Variable float_of_text : string -> option pyfloat.

Lemma read_number (members : list (string * json)) (key : string) :
  (assoc_last key members None = None \/
   (exists f, assoc_last key members None = Some (JFloat f)) \/
   (exists n, assoc_last key members None = Some (JInt n) /\ exact_as_float n)) ->
  obind (dict_get (JObject members) key) (py_float float_of_text)
  = Done (metric_number members key).
Proof.
  unfold metric_number. intros [H|[[f H]|(n & H & Hn)]]; simpl; rewrite H; simpl.
  - reflexivity.
  - reflexivity.
  - by apply float_of_int_exact.
Qed.

Lemma metrics_block_numbers (j : json) (rmse mae r2 : pyfloat) :
  obind (dict_get j "rmse") (py_float float_of_text) = Done rmse ->
  obind (dict_get j "mae") (py_float float_of_text) = Done mae ->
  obind (dict_get j "r2") (py_float float_of_text) = Done r2 ->
  metrics_block float_of_text (Holds j) = (metric_kpis rmse mae r2, Done tt).
Proof.
  intros H1 H2 H3. unfold metrics_block. cbn [path_exists read_file].
  rewrite bind_lift_Done, H1, bind_lift_Done, H2, bind_lift_Done, H3, bind_lift_Done.
  reflexivity.
Qed.

Lemma metrics_block_first_raises (j : json) (ex : exn) :
  obind (dict_get j "rmse") (py_float float_of_text) = Raised ex ->
  metrics_block float_of_text (Holds j)
  = ((no_data_kpis
      ++ [(TabModel, ExceptionWarning "Couldn't read model_metrics.json: " ex)])%list,
     Done tt).
Proof.
  intros H. unfold metrics_block. cbn [path_exists read_file].
  rewrite bind_lift_Done, H. reflexivity.
Qed.

End Metrics.

(** X10. A metrics object whose three keys are each a float, an integer
    below 2^53 in magnitude, or not there, shows three numbers with four
    decimal places and the caption: a key that is not there reads as 0 and
    is shown as 0.0000, not as the em-dash, and of a key given twice the
    last value counts.  An integer RMSE of magnitude 2^1024 or more does not
    convert to a float: the block then shows the three em-dashes and the
    warning with the [OverflowError]. *)
Theorem missing_metric_reads_zero
    (float_of_text : string -> option pyfloat) (members : list (string * json)) :
  ((forall key, key ∈ ["rmse"; "mae"; "r2"] ->
      assoc_last key members None = None \/
      (exists f, assoc_last key members None = Some (JFloat f)) \/
      (exists n, assoc_last key members None = Some (JInt n) /\ exact_as_float n)) ->
   metrics_block float_of_text (Holds (JObject members))
   = (metric_kpis (metric_number members "rmse") (metric_number members "mae")
        (metric_number members "r2"),
      Done tt)) /\
  (forall key, key ∉ map fst members ->
     PyFormat.format_float false 4 (metric_number members key) = "0.0000") /\
  (forall key f rest,
     key ∉ map fst rest ->
     metric_number (members ++ (key, JFloat f) :: rest) key = f) /\
  (forall n,
     assoc_last "rmse" members None = Some (JInt n) -> 2 ^ 1024 <= Z.abs n ->
     metrics_block float_of_text (Holds (JObject members))
     = ((no_data_kpis
         ++ [(TabModel,
              ExceptionWarning "Couldn't read model_metrics.json: " OverflowError)])%list,
        Done tt)).
Proof.
  split; [|split; [|split]].
  - intros H. apply metrics_block_numbers; apply read_number, H.
    + apply list_elem_of_here.
    + apply list_elem_of_further, list_elem_of_here.
    + do 2 apply list_elem_of_further. apply list_elem_of_here.
  - intros key Hkey. unfold metric_number. by rewrite assoc_last_absent.
  - intros key f rest Hrest. unfold metric_number.
    by rewrite assoc_last_last.
  - intros n Hn Hbig. apply metrics_block_first_raises.
    cbn [dict_get obind]. rewrite Hn. cbn [default from_option id py_float].
    by apply float_of_int_overflow.
Qed.

Lemma missing_metric_reads_zero_witness :
  metrics_block decimal_float
    (Holds (JObject [("rmse", JFloat (Finite (3 # 2))); ("rmse", JFloat (Finite (1 # 4)));
                     ("mae", JInt 7)]))
  = (metric_kpis (Finite (1 # 4)) (Finite 7) (Finite 0), Done tt) /\
  PyFormat.format_float false 4 (Finite (1 # 4)) = "0.2500" /\
  metrics_block decimal_float (Holds (JObject [("rmse", JInt (10 ^ 400))]))
  = ((no_data_kpis
      ++ [(TabModel,
           ExceptionWarning "Couldn't read model_metrics.json: " OverflowError)])%list,
     Done tt).
Proof.
  split; [|split; [reflexivity|]].
  - apply (missing_metric_reads_zero decimal_float
             [("rmse", JFloat (Finite (3 # 2))); ("rmse", JFloat (Finite (1 # 4)));
              ("mae", JInt 7)]).
    intros key Hkey.
    apply elem_of_cons in Hkey as [->|Hkey]; [right; left; simpl; eauto|].
    apply elem_of_cons in Hkey as [->|Hkey].
    { right; right. exists 7. split; [reflexivity|]. reflexivity. }
    apply elem_of_cons in Hkey as [->|Hkey]; [by left|].
    by apply elem_of_nil in Hkey.
  - apply (missing_metric_reads_zero decimal_float [("rmse", JInt (10 ^ 400))])
      with (n := 10 ^ 400); [reflexivity|].
    apply Z.leb_le. vm_compute. reflexivity.
Defined.

(** X11. The metrics block shows all three numbers or none: the numbers
    when the file parses and each of the three reads gives a number, and
    otherwise three em-dashes with one message, when the file is not there,
    does not parse, or one read fails.  It raises nothing. *)
Theorem metrics_all_or_none
    (float_of_text : string -> option pyfloat) (f : file json) :
  (exists j rmse mae r2,
     f = Holds j /\
     obind (dict_get j "rmse") (py_float float_of_text) = Done rmse /\
     obind (dict_get j "mae") (py_float float_of_text) = Done mae /\
     obind (dict_get j "r2") (py_float float_of_text) = Done r2 /\
     metrics_block float_of_text f = (metric_kpis rmse mae r2, Done tt)) \/
  (exists message,
     metrics_block float_of_text f
     = ((no_data_kpis ++ [(TabModel, message)])%list, Done tt) /\
     (f = Absent \/ (exists ex, f = Unreadable ex) \/
      exists j key ex,
        f = Holds j /\ key ∈ ["rmse"; "mae"; "r2"] /\
        obind (dict_get j key) (py_float float_of_text) = Raised ex)).
Proof.
  destruct f as [|ex|j].
  - right. eexists. split; [reflexivity | by left].
  - right. eexists. split; [reflexivity | right; left; eauto].
  - destruct (read_field_outcome float_of_text j "rmse") as [[rmse H1]|[e1 H1]].
    2:{ right. destruct (metrics_block_malformed float_of_text j "rmse" e1)
          as [ex' ->]; [apply list_elem_of_here | done |].
        eexists. split; [reflexivity|]. right; right.
        exists j, "rmse", e1. split; [done|]. split; [apply list_elem_of_here | done]. }
    destruct (read_field_outcome float_of_text j "mae") as [[mae H2]|[e2 H2]].
    2:{ right. destruct (metrics_block_malformed float_of_text j "mae" e2)
          as [ex' ->]; [apply list_elem_of_further, list_elem_of_here | done |].
        eexists. split; [reflexivity|]. right; right.
        exists j, "mae", e2. split; [done|].
        split; [apply list_elem_of_further, list_elem_of_here | done]. }
    destruct (read_field_outcome float_of_text j "r2") as [[r2 H3]|[e3 H3]].
    2:{ right. destruct (metrics_block_malformed float_of_text j "r2" e3)
          as [ex' ->];
          [do 2 apply list_elem_of_further; apply list_elem_of_here | done |].
        eexists. split; [reflexivity|]. right; right.
        exists j, "r2", e3. split; [done|].
        split; [do 2 apply list_elem_of_further; apply list_elem_of_here | done]. }
    left. exists j, rmse, mae, r2. repeat (split; [done|]).
    by apply metrics_block_numbers.
Qed.

(** ** Roles and columns *)

Lemma no_common_name_spec (l1 l2 : list string) (c : string) :
  no_common_name l1 l2 = true -> c ∈ l1 -> c ∈ l2 -> False.
Proof.
  unfold no_common_name. rewrite forallb_forall. intros H H1 H2.
  specialize (H c ltac:(by apply list_elem_of_In)).
  apply negb_true_iff in H.
  assert (existsb (String.eqb c) l2 = true) as E; [|congruence].
  apply existsb_exists. exists c. split; [by apply list_elem_of_In|].
  apply String.eqb_refl.
Qed.

Lemma candidates_disjoint (r1 r2 : role) :
  r1 <> r2 -> no_common_name (candidates r1) (candidates r2) = true.
Proof. destruct r1, r2; intros H; try done; reflexivity. Qed.

Lemma resolve_candidate (df : DataFrame) (r : role) (c : string) :
  resolve df r = Some c -> c ∈ candidates r.
Proof.
  intros H. apply pick_col_Some in H as (before & after & -> & _).
  apply elem_of_app. right. apply list_elem_of_here.
Qed.

(** X12. No column is bound to two roles: the candidate names of different
    roles have no name in common, so the seven bindings of a table are
    pairwise different columns, each a column of the table under one of its
    role's names. *)
Theorem roles_bind_different_columns
    (df : DataFrame) (r1 r2 : role) (c1 c2 : string) :
  resolve df r1 = Some c1 -> resolve df r2 = Some c2 -> r1 <> r2 ->
  c1 <> c2 /\ c1 ∈ columns df /\ c2 ∈ columns df /\
  c1 ∈ candidates r1 /\ c2 ∈ candidates r2.
Proof.
  intros H1 H2 Hne.
  pose proof (resolve_candidate _ _ _ H1) as K1.
  pose proof (resolve_candidate _ _ _ H2) as K2.
  split; [|by split; [apply (resolve_bound df r1) | split;
                      [apply (resolve_bound df r2) | done]]].
  intros ->. eapply no_common_name_spec; [by apply candidates_disjoint | done..].
Qed.

Lemma roles_bind_different_columns_witness :
  resolve scenario area = Some "Area" /\ resolve scenario price = Some "price" /\
  "Area" <> "price".
Proof.
  split; [reflexivity|]. split; [reflexivity|].
  apply (roles_bind_different_columns scenario area price "Area" "price");
    [reflexivity | reflexivity | discriminate].
Defined.

(** ** The Explore tab *)

Section Explore.

Variable to_numeric_text : string -> option Q.
Variable series_mean : list Q -> pyfloat.
Variable series_median : list Q -> pyfloat.
Variable value_counts : list Q -> nat -> outcome histogram.

Lemma explore_tab_parts (e : env) (df filtered : DataFrame)
    (price_col priceperm_col ln_price_col : option string) (k2 k3 k4 : string) :
  safe_median to_numeric_text series_median filtered price_col = Done k2 ->
  safe_median to_numeric_text series_median filtered priceperm_col = Done k3 ->
  safe_mean to_numeric_text series_mean filtered ln_price_col = Done k4 ->
  explore_tab to_numeric_text series_mean series_median value_counts
    e df filtered price_col priceperm_col ln_price_col
  = bind (explore_head df filtered k2 k3 k4, Done tt)
      (fun _ => map_section (map_file e);;
                price_chart to_numeric_text value_counts filtered price_col).
Proof.
  intros H2 H3 H4. unfold explore_tab. rewrite H2, H3, H4.
  fold (map_section (map_file e)).
  fold (price_chart to_numeric_text value_counts filtered price_col).
  set (rest := map_section (map_file e);;
               price_chart to_numeric_text value_counts filtered price_col).
  unfold bind at 1 2 3. unfold emit, lift. cbn [app].
  destruct rest as [p o]. cbn. reflexivity.
Qed.


End Explore.

Section Chart.

Variable to_numeric_text : string -> option Q.
Variable value_counts : list Q -> nat -> outcome histogram.

Lemma price_chart_bound (filtered : DataFrame) (c : string) :
  c <> EmptyString -> c ∈ columns filtered ->
  price_chart to_numeric_text value_counts filtered (Some c)
  = match numeric_values to_numeric_text filtered c with
    | [] =>
        ([ (TabExplore, Markdown "### Price distribution (filtered)");
           (TabExplore, InfoBox "No numeric price values to plot.") ],
         Done tt)
    | x :: v =>
        match value_counts (x :: v) 25 with
        | Done counts =>
            ([ (TabExplore, Markdown "### Price distribution (filtered)");
               (TabExplore, BarChart counts) ],
             Done tt)
        | Stopped =>
            ([(TabExplore, Markdown "### Price distribution (filtered)")], Stopped)
        | Raised ex =>
            ([(TabExplore, Markdown "### Price distribution (filtered)")], Raised ex)
        end
    end.
Proof.
  intros Hne Hin. unfold price_chart. rewrite truthy_Some by done.
  rewrite (proj2 (has_column_elem_of filtered c) Hin).
  rewrite getitem_present by done.
  rewrite (bind_Done_eq (emit TabExplore (Markdown _)) _ tt eq_refl).
  rewrite bind_lift_Done. cbv zeta. rewrite dropna_to_num_map.
  fold (numeric_values to_numeric_text filtered c).
  destruct (numeric_values to_numeric_text filtered c) as [|x v]; [done|].
  cbn [length Nat.ltb Nat.leb].
  by destruct (value_counts (x :: v) 25) as [counts| |ex].
Qed.


End Chart.

(** X9. The price chart agrees with the Median price KPI: for a bound price
    column the note that there is nothing to plot stands exactly when the
    KPI shows the em-dash; when the KPI shows a number the histogram of the
    column's numbers over 25 bins is asked for, and the chart is drawn with
    it, or the exception that the histogram raises ends the section after
    its heading; without a price column there is no chart section at all. *)
Theorem price_chart_agrees_with_kpi
    (to_numeric_text : string -> option Q) (series_median : list Q -> pyfloat)
    (value_counts : list Q -> nat -> outcome histogram)
    (filtered : DataFrame) (c : string) :
  resolve filtered price = Some c ->
  (safe_median to_numeric_text series_median filtered (Some c) = Done em_dash ->
   price_chart to_numeric_text value_counts filtered (Some c)
   = ([ (TabExplore, Markdown "### Price distribution (filtered)");
        (TabExplore, InfoBox "No numeric price values to plot.") ],
      Done tt)) /\
  (safe_median to_numeric_text series_median filtered (Some c) <> Done em_dash ->
   numeric_values to_numeric_text filtered c <> [] /\
   (forall counts,
      value_counts (numeric_values to_numeric_text filtered c) 25%nat = Done counts ->
      price_chart to_numeric_text value_counts filtered (Some c)
      = ([ (TabExplore, Markdown "### Price distribution (filtered)");
           (TabExplore, BarChart counts) ],
         Done tt)) /\
   (forall ex,
      value_counts (numeric_values to_numeric_text filtered c) 25%nat = Raised ex ->
      price_chart to_numeric_text value_counts filtered (Some c)
      = ([(TabExplore, Markdown "### Price distribution (filtered)")], Raised ex))) /\
  price_chart to_numeric_text value_counts filtered None = ([], Done tt).
Proof.
  intros Hr. apply resolve_bound in Hr as [Hin Hne].
  rewrite price_chart_bound by done.
  pose proof (safe_median_em_dash to_numeric_text series_median filtered c Hne Hin)
    as Hiff.
  split; [|split; [|done]].
  - intros H. apply Hiff in H. by rewrite H.
  - intros H. destruct (numeric_values to_numeric_text filtered c) as [|x v] eqn:E.
    + exfalso. by apply H, Hiff.
    + split; [done|]. split.
      * by intros counts ->.
      * by intros ex ->.
Qed.

Lemma price_chart_agrees_with_kpi_witness :
  (exists counts,
     price_chart decimal_text equal_width_bins scenario (Some "price")
     = ([ (TabExplore, Markdown "### Price distribution (filtered)");
          (TabExplore, BarChart counts) ],
        Done tt) /\
     length counts = 25%nat) /\
  price_chart decimal_text (fun _ _ => Raised ValueError) scenario (Some "price")
  = ([(TabExplore, Markdown "### Price distribution (filtered)")], Raised ValueError).
Proof.
  split.
  - destruct (price_chart_agrees_with_kpi decimal_text exact_median equal_width_bins
                scenario "price" eq_refl) as (_ & H & _).
    destruct H as (_ & H & _); [discriminate|].
    eexists. split; [apply H; reflexivity | reflexivity].
  - destruct (price_chart_agrees_with_kpi decimal_text exact_median
                (fun _ _ => Raised ValueError) scenario "price" eq_refl)
      as (_ & H & _).
    destruct H as (_ & _ & H); [discriminate|].
    apply H. reflexivity.
Defined.

(** ** The page of a whole run *)



Lemma map_section_unreadable (ex : exn) :
  map_section (Unreadable ex) = ([], Raised ex).
Proof. reflexivity. Qed.


Section Run.

Variable to_numeric_text : string -> option Q.
Variable series_mean : list Q -> pyfloat.
Variable series_median : list Q -> pyfloat.
Variable value_counts : list Q -> nat -> outcome histogram.
Variable float_of_text : string -> option pyfloat.

Local Abbreviation dashboard' :=
  (dashboard to_numeric_text series_mean series_median value_counts float_of_text).
Local Abbreviation sidebar_filters' := (sidebar_filters to_numeric_text).
Local Abbreviation explore_tab' :=
  (explore_tab to_numeric_text series_mean series_median value_counts).

(** The run once the dataset is loaded and the sidebar has handed on its
    view. *)
Lemma dashboard_after_sidebar (e : env) (df filtered : DataFrame) :
  data_file e = Holds df ->
  result (sidebar_filters' (visitor e) (detect df) df) = Done filtered ->
  dashboard' e
  = (((Main, PageConfig "Milan Housing Dashboard" "wide")
      :: (Main, Title "🏙️ Milan Housing Dashboard")
      :: (Main, Caption "Explore listings + map + model metrics + SHAP explainability")
      :: page (sidebar_filters' (visitor e) (detect df) df)
      ++ (Sidebar, Markdown "---")
      :: (Sidebar, Metric "Rows after filters"
                     (PyFormat.format_int_commas (length (rows filtered))))
      :: (Sidebar, DownloadButton "⬇️ Download filtered data (CSV)" filtered
                     "milan_filtered.csv" "text/csv")
      :: (Main, Tabs ["📊 Explore"; "🤖 Model"; "ℹ️ About"])
      :: page (explore_tab' e df filtered (resolve df price)
                 (resolve df price_per_area) (resolve df ln_price);;
               model_tab float_of_text e;; about_tab))%list,
     result (explore_tab' e df filtered (resolve df price)
               (resolve df price_per_area) (resolve df ln_price);;
             model_tab float_of_text e;; about_tab)).
Proof.
  intros Hdata Hside. unfold dashboard. rewrite Hdata.
  unfold load_data. cbn [path_exists negb read_file].
  rewrite (bind_Done_eq (emit Main (PageConfig _ _)) _ tt eq_refl).
  rewrite (bind_Done_eq (emit Main (Title _)) _ tt eq_refl).
  rewrite (bind_Done_eq (emit Main (Caption _)) _ tt eq_refl).
  rewrite (bind_Done_eq (ret tt) _ tt eq_refl).
  rewrite bind_lift_Done. cbv zeta.
  rewrite (bind_Done_eq _ _ _ Hside).
  rewrite (bind_Done_eq (emit Sidebar (Markdown _)) _ tt eq_refl).
  rewrite (bind_Done_eq (emit Sidebar (Metric _ _)) _ tt eq_refl).
  rewrite (bind_Done_eq (emit Sidebar (DownloadButton _ _ _ _)) _ tt eq_refl).
  rewrite (bind_Done_eq (emit Main (Tabs _)) _ tt eq_refl).
  unfold emit, ret, page. cbn [fst app]. reflexivity.
Qed.


Lemma sidebar_page_in_sidebar (u : user) (b : bindings) (df view : DataFrame) :
  result (sidebar_filters' u b df) = Done view ->
  Forall (fun el => fst el = Sidebar) (page (sidebar_filters' u b df)).
Proof.
  intros H.
  apply sidebar_filters_Done in H as (f1 & f2 & f3 & H1 & H2 & H3 & H4 & ->).
  assert (forall (col : option string) (input : DataFrame),
            Forall (fun el => fst el = Sidebar) (page (area_block u col input))) as A.
  { intros col input. destruct (truthy col) as [c|] eqn:E.
    - apply truthy_inv in E as [-> Hne].
      destruct (decide (c ∈ columns input)) as [Hin|Hnin].
      + rewrite area_block_bound by done.
        destruct (sorted _); cbv zeta; unfold page; cbn [fst]; by repeat constructor.
      + unfold area_block. rewrite truthy_Some by done.
        rewrite getitem_absent by done. constructor.
    - rewrite area_block_unbound by done. constructor. }
  assert (forall (col : option string) (input : DataFrame),
            Forall (fun el => fst el = Sidebar)
              (page (bedroom_block to_numeric_text u col input))) as B.
  { intros col input. destruct (truthy col) as [c|] eqn:E.
    - apply truthy_inv in E as [-> Hne].
      destruct (decide (c ∈ columns input)) as [Hin|Hnin].
      + rewrite bedroom_block_bound by done.
        destruct (numeric_values _ _ _); [constructor|].
        cbv zeta. destruct (_ =? _); [|destruct (_ && _)];
          unfold page; cbn [fst]; by repeat constructor.
      + unfold bedroom_block. rewrite truthy_Some by done.
        rewrite getitem_absent by done. constructor.
    - rewrite (proj1 (range_block_unbound to_numeric_text EmptyString u _ input E)).
      constructor. }
  assert (forall (label : string) (col : option string) (input : DataFrame),
            Forall (fun el => fst el = Sidebar)
              (page (float_range_block to_numeric_text label u col input))) as C.
  { intros label col input. destruct (truthy col) as [c|] eqn:E.
    - apply truthy_inv in E as [-> Hne].
      destruct (decide (c ∈ columns input)) as [Hin|Hnin].
      + rewrite float_range_block_bound by done.
        destruct (numeric_values _ _ _); [constructor|].
        cbv zeta. destruct (Qeq_bool _ _); unfold page; cbn [fst];
          by repeat constructor.
      + unfold float_range_block. rewrite truthy_Some by done.
        rewrite getitem_absent by done. constructor.
    - rewrite (proj2 (range_block_unbound to_numeric_text label u _ input E)).
      constructor. }
  constructor; [done|]. repeat (apply Forall_app; split); auto.
Qed.

(** A run that reaches its end has loaded the dataset and got a view from
    the sidebar. *)
Lemma dashboard_Done_data (e : env) :
  result (dashboard' e) = Done tt ->
  exists df filtered,
    data_file e = Holds df /\
    result (sidebar_filters' (visitor e) (detect df) df) = Done filtered.
Proof.
  intros H. unfold dashboard in H.
  apply bind_Done_inv in H as ([] & _ & H & _).
  apply bind_Done_inv in H as ([] & _ & H & _).
  apply bind_Done_inv in H as ([] & _ & H & _).
  apply bind_Done_inv in H as ([] & _ & H & _).
  apply bind_Done_inv in H as (df & Hload & H & _).
  cbv zeta in H.
  apply bind_Done_inv in H as (filtered & Hside & _).
  exists df, filtered. split; [|done].
  unfold load_data in Hload. destruct (data_file e); try discriminate.
  by injection Hload as ->.
Qed.

(** With the dataset loaded and a view handed on, an unreadable map file
    ends the run after the head of the Explore tab. *)
Lemma dashboard_unreadable_map (e : env) (df filtered : DataFrame) (ex : exn) :
  data_file e = Holds df ->
  result (sidebar_filters' (visitor e) (detect df) df) = Done filtered ->
  map_file e = Unreadable ex ->
  exists k2 k3 k4,
    dashboard' e
    = (((Main, PageConfig "Milan Housing Dashboard" "wide")
        :: (Main, Title "🏙️ Milan Housing Dashboard")
        :: (Main, Caption "Explore listings + map + model metrics + SHAP explainability")
        :: page (sidebar_filters' (visitor e) (detect df) df)
        ++ (Sidebar, Markdown "---")
        :: (Sidebar, Metric "Rows after filters"
                       (PyFormat.format_int_commas (length (rows filtered))))
        :: (Sidebar, DownloadButton "⬇️ Download filtered data (CSV)" filtered
                       "milan_filtered.csv" "text/csv")
        :: (Main, Tabs ["📊 Explore"; "🤖 Model"; "ℹ️ About"])
        :: explore_head df filtered k2 k3 k4)%list,
       Raised ex).
Proof.
  intros Hdata Hside Hmap.
  rewrite (dashboard_after_sidebar _ _ _ Hdata Hside).
  destruct (safe_median_returns to_numeric_text series_median filtered
              (resolve df price)) as [k2 H2].
  destruct (safe_median_returns to_numeric_text series_median filtered
              (resolve df price_per_area)) as [k3 H3].
  destruct (safe_mean_returns to_numeric_text series_mean filtered
              (resolve df ln_price)) as [k4 H4].
  exists k2, k3, k4.
  rewrite (explore_tab_parts _ _ _ value_counts _ _ _ _ _ _ _ _ _ H2 H3 H4).
  rewrite Hmap, map_section_unreadable.
  unfold bind, page, result. cbn [fst snd app]. by rewrite app_nil_r.
Qed.


End Run.

(** ** The bounds of the bedroom slider *)

Lemma elem_of_page_bind {A B : Type} (m : Script A) (f : A -> Script B) (el : element) :
  el ∈ page (bind m f) ->
  el ∈ page m \/ exists a, result m = Done a /\ el ∈ page (f a).
Proof.
  destruct m as [p [a| |ex]]; unfold page, result; simpl; [|by left..].
  destruct (f a) as [p' o] eqn:E. simpl. intros H.
  apply elem_of_app in H as [H|H]; [by left|].
  right. exists a. by rewrite E.
Qed.

Lemma area_block_page (u : user) (col : option string) (input : DataFrame)
    (el : element) :
  el ∈ page (area_block u col input) ->
  exists areas selected, el = (Sidebar, Multiselect "Area" areas selected).
Proof.
  destruct (truthy col) as [c|] eqn:E.
  - apply truthy_inv in E as [-> Hne].
    destruct (decide (c ∈ columns input)) as [Hin|Hnin].
    + rewrite area_block_bound by done.
      destruct (sorted _) as [areas| |ex]; cbv zeta; unfold page; cbn [fst];
        intros H; [|by apply elem_of_nil in H..].
      apply list_elem_of_singleton in H. eauto.
    + unfold area_block. rewrite truthy_Some by done.
      rewrite getitem_absent by done. intros H. by apply elem_of_nil in H.
  - rewrite area_block_unbound by done. intros H. by apply elem_of_nil in H.
Qed.

Lemma float_range_block_page (to_numeric_text : string -> option Q) (label : string)
    (u : user) (col : option string) (input : DataFrame) (el : element) :
  el ∈ page (float_range_block to_numeric_text label u col input) ->
  exists lo hi value, el = (Sidebar, SliderFloat label lo hi value).
Proof.
  destruct (truthy col) as [c|] eqn:E.
  - apply truthy_inv in E as [-> Hne].
    destruct (decide (c ∈ columns input)) as [Hin|Hnin].
    + rewrite float_range_block_bound by done.
      destruct (numeric_values _ _ _) as [|x v];
        [intros H; by apply elem_of_nil in H|].
      cbv zeta. destruct (Qeq_bool _ _); unfold page; cbn [fst]; intros H;
        [by apply elem_of_nil in H|].
      apply list_elem_of_singleton in H. eauto.
    + unfold float_range_block. rewrite truthy_Some by done.
      rewrite getitem_absent by done. intros H. by apply elem_of_nil in H.
  - rewrite (proj2 (range_block_unbound to_numeric_text label u _ input E)).
    intros H. by apply elem_of_nil in H.
Qed.

(** What the bedroom block shows is its slider, over the truncated least
    and greatest number of the column in the frame it is given. *)
Lemma bedroom_block_page (to_numeric_text : string -> option Q) (u : user)
    (c : string) (input : DataFrame) (el : element) :
  el ∈ page (bedroom_block to_numeric_text u (Some c) input) ->
  exists x v value,
    numeric_values to_numeric_text input c = x :: v /\
    el = (Sidebar, SliderInt "Bedroom range" (py_int (series_min x v))
                     (py_int (series_max x v)) value).
Proof.
  destruct (truthy (Some c)) as [c'|] eqn:E.
  - apply truthy_inv in E as [[= <-] Hne].
    destruct (decide (c ∈ columns input)) as [Hin|Hnin].
    + rewrite bedroom_block_bound by done.
      destruct (numeric_values _ _ _) as [|x v];
        [intros H; by apply elem_of_nil in H|].
      cbv zeta. destruct (_ =? _); [intros H; by apply elem_of_nil in H|].
      destruct (_ && _); unfold page; cbn [fst]; intros H;
        [|by apply elem_of_nil in H].
      apply list_elem_of_singleton in H. eauto.
    + unfold bedroom_block. rewrite truthy_Some by done.
      rewrite getitem_absent by done. intros H. by apply elem_of_nil in H.
  - rewrite (proj1 (range_block_unbound to_numeric_text EmptyString u _ input E)).
    intros H. by apply elem_of_nil in H.
Qed.

(** X7. The bounds of the bedroom slider are taken on the view that the
    area block left, not on the table: a bedroom slider on the page of the
    sidebar has as bounds the truncated least and greatest bedroom number of
    that view, and they lie within the bounds that the whole table gives. *)
Theorem bounds_narrow_with_the_view
    (to_numeric_text : string -> option Q) (u : user) (df : DataFrame)
    (c : string) (lo hi : Z) (value : Z * Z) :
  resolve df bedrooms = Some c ->
  (Sidebar, SliderInt "Bedroom range" lo hi value)
  ∈ page (sidebar_filters to_numeric_text u (detect df) df) ->
  exists view x' v' x v,
    result (area_block u (resolve df area) df) = Done view /\
    numeric_values to_numeric_text view c = x' :: v' /\
    lo = py_int (series_min x' v') /\ hi = py_int (series_max x' v') /\
    numeric_values to_numeric_text df c = x :: v /\
    py_int (series_min x v) <= lo /\ hi <= py_int (series_max x v).
Proof.
  intros Hbed Hel. unfold sidebar_filters in Hel.
  cbn [detect area_col bed_col energy_col transport_col] in Hel.
  rewrite Hbed in Hel.
  apply elem_of_page_bind in Hel as [Hel|([] & _ & Hel)].
  { apply list_elem_of_singleton in Hel. discriminate Hel. }
  apply elem_of_page_bind in Hel as [Hel|(view & Hview & Hel)].
  { apply area_block_page in Hel as (? & ? & Hel). discriminate Hel. }
  apply elem_of_page_bind in Hel as [Hel|(f2 & _ & Hel)].
  2:{ exfalso. unfold energy_block, transport_block in Hel.
      apply elem_of_page_bind in Hel as [Hel|(f3 & _ & Hel)].
      { apply float_range_block_page in Hel as (? & ? & ? & Hel). discriminate Hel. }
      apply elem_of_page_bind in Hel as [Hel|(f4 & _ & Hel)].
      { apply float_range_block_page in Hel as (? & ? & ? & Hel). discriminate Hel. }
      by apply elem_of_nil in Hel. }
  apply bedroom_block_page in Hel as (x' & v' & value' & Hv' & Hel).
  injection Hel as -> -> _.
  destruct (area_block_sublist _ _ _ _ Hview) as (Hcols & Hsub & _).
  assert (forall q, q ∈ x' :: v' -> q ∈ numeric_values to_numeric_text df c) as Hincl.
  { intros q Hq. rewrite <- Hv' in Hq.
    by apply (numeric_values_view to_numeric_text df view). }
  destruct (numeric_values to_numeric_text df c) as [|x v] eqn:Hv.
  { specialize (Hincl x' (list_elem_of_here _ _)). by apply elem_of_nil in Hincl. }
  exists view, x', v', x, v. repeat (split; [done|]). split.
  - apply py_int_mono, series_min_spec, Hincl, series_min_spec.
  - apply py_int_mono, series_max_spec, Hincl, series_max_spec.
Qed.

Lemma bounds_narrow_with_the_view_witness :
  page (sidebar_filters decimal_text picks_area_X (detect listings) listings)
  = [ (Sidebar, Header "Filters");
      (Sidebar, Multiselect "Area" [Text "X"; Text "Y"] [Text "X"]);
      (Sidebar, SliderInt "Bedroom range" 2 3 (2, 3)) ] /\
  numeric_values decimal_text listings "Bedroom" = [2; 3; 5]%Q /\
  exists view x' v' x v,
    result (area_block picks_area_X (resolve listings area) listings) = Done view /\
    numeric_values decimal_text view "Bedroom" = x' :: v' /\
    2 = py_int (series_min x' v') /\ 3 = py_int (series_max x' v') /\
    numeric_values decimal_text listings "Bedroom" = x :: v /\
    py_int (series_min x v) <= 2 /\ 3 <= py_int (series_max x v).
Proof.
  split; [reflexivity|]. split; [reflexivity|].
  apply (bounds_narrow_with_the_view decimal_text picks_area_X listings "Bedroom"
           2 3 (2, 3)); [reflexivity|].
  do 2 apply list_elem_of_further. apply list_elem_of_here.
Defined.

(** ** Whole runs *)

(** X16. In a run that reaches its end, the row count in the sidebar, the
    Listings KPI, the export and the preview all come from one view, the one
    the sidebar handed on: the two counts are its number of rows, the export
    holds it whole, and the preview holds its first fifty rows. *)
Theorem counts_export_and_preview_agree
    (to_numeric_text : string -> option Q)
    (series_mean series_median : list Q -> pyfloat)
    (value_counts : list Q -> nat -> outcome histogram)
    (float_of_text : string -> option pyfloat) (e : env) :
  result (dashboard to_numeric_text series_mean series_median value_counts
            float_of_text e) = Done tt ->
  exists df filtered,
    data_file e = Holds df /\
    result (sidebar_filters to_numeric_text (visitor e) (detect df) df) = Done filtered /\
    (Sidebar, Metric "Rows after filters"
                (PyFormat.format_int_commas (length (rows filtered))))
    ∈ page (dashboard to_numeric_text series_mean series_median value_counts
              float_of_text e) /\
    (Sidebar, DownloadButton "⬇️ Download filtered data (CSV)" filtered
                "milan_filtered.csv" "text/csv")
    ∈ page (dashboard to_numeric_text series_mean series_median value_counts
              float_of_text e) /\
    (Kpi 1, Metric "Listings (filtered)"
              (PyFormat.format_int_commas (length (rows filtered))))
    ∈ page (dashboard to_numeric_text series_mean series_median value_counts
              float_of_text e) /\
    (ColLeft, Dataframe (head50 filtered))
    ∈ page (dashboard to_numeric_text series_mean series_median value_counts
              float_of_text e) /\
    rows (head50 filtered) = take 50 (rows filtered).
Proof.
  intros H.
  destruct (dashboard_Done_data _ _ _ _ _ _ H) as (df & filtered & Hdata & Hside).
  exists df, filtered. split; [done|]. split; [done|].
  rewrite (dashboard_after_sidebar _ _ _ _ _ _ _ _ Hdata Hside). unfold page at 1 3 5 7.
  cbn [fst].
  destruct (safe_median_returns to_numeric_text series_median filtered
              (resolve df price)) as [k2 H2].
  destruct (safe_median_returns to_numeric_text series_median filtered
              (resolve df price_per_area)) as [k3 H3].
  destruct (safe_mean_returns to_numeric_text series_mean filtered
              (resolve df ln_price)) as [k4 H4].
  rewrite (explore_tab_parts _ _ _ value_counts _ _ _ _ _ _ _ _ _ H2 H3 H4).
  set (rest := bind _ _).
  assert (exists tail, page rest = (explore_head df filtered k2 k3 k4 ++ tail)%list)
    as [tail ->].
  { subst rest. unfold bind at 1 2. unfold page.
    destruct (bind (map_section _) _) as [p1 o1].
    destruct o1 as [[]| |ex]; cbn [fst snd].
    - destruct (bind (model_tab _ _) _) as [p2 o2]. cbn [fst].
      rewrite <- app_assoc. eauto.
    - eauto.
    - eauto. }
  repeat split.
  - do 3 apply list_elem_of_further. apply elem_of_app. right.
    apply list_elem_of_further, list_elem_of_here.
  - do 3 apply list_elem_of_further. apply elem_of_app. right.
    do 2 apply list_elem_of_further. apply list_elem_of_here.
  - do 3 apply list_elem_of_further. apply elem_of_app. right.
    do 4 apply list_elem_of_further. apply elem_of_app. left.
    do 2 apply list_elem_of_further. apply list_elem_of_here.
  - do 3 apply list_elem_of_further. apply elem_of_app. right.
    do 4 apply list_elem_of_further. apply elem_of_app. left.
    do 9 apply list_elem_of_further. apply list_elem_of_here.
Qed.

Lemma counts_export_and_preview_agree_witness :
  exists df filtered,
    data_file bare_install = Holds df /\
    result (sidebar_filters decimal_text (visitor bare_install) (detect df) df)
    = Done filtered /\
    (Sidebar, Metric "Rows after filters"
                (PyFormat.format_int_commas (length (rows filtered))))
    ∈ page (dashboard decimal_text exact_mean exact_median equal_width_bins
              decimal_float bare_install).
Proof.
  destruct (counts_export_and_preview_agree decimal_text exact_mean exact_median
              equal_width_bins decimal_float bare_install)
    as (df & filtered & H1 & H2 & H3 & _); [vm_compute; reflexivity|].
  exists df, filtered. split; [exact H1|]. split; [exact H2 | exact H3].
Defined.

(** X17. A map file that is there but cannot be read ends the run with the
    exception of the read, after the heading of the map column: unlike the
    metrics file, whose failure is caught, it leaves the page without the
    Model and About tabs. *)
Theorem unreadable_map_ends_the_run
    (to_numeric_text : string -> option Q)
    (series_mean series_median : list Q -> pyfloat)
    (value_counts : list Q -> nat -> outcome histogram)
    (float_of_text : string -> option pyfloat) (e : env)
    (df filtered : DataFrame) (ex : exn) :
  data_file e = Holds df ->
  result (sidebar_filters to_numeric_text (visitor e) (detect df) df) = Done filtered ->
  map_file e = Unreadable ex ->
  result (dashboard to_numeric_text series_mean series_median value_counts
            float_of_text e) = Raised ex /\
  Forall (fun el => in_model_or_about (fst el) = false)
    (page (dashboard to_numeric_text series_mean series_median value_counts
             float_of_text e)) /\
  (ColRight, Subheader "🗺️ Milan map (saved Folium HTML)")
  ∈ page (dashboard to_numeric_text series_mean series_median value_counts
            float_of_text e).
Proof.
  intros Hdata Hside Hmap.
  destruct (dashboard_unreadable_map to_numeric_text series_mean series_median
              value_counts float_of_text e df filtered ex Hdata Hside Hmap)
    as (k2 & k3 & k4 & ->).
  unfold page, result. cbn [fst snd].
  split; [done|]. split.
  - do 3 (constructor; [done|]). apply Forall_app. split.
    + eapply Forall_impl; [exact (sidebar_page_in_sidebar _ _ _ _ _ Hside)|].
      intros el Hel. by rewrite Hel.
    + by repeat constructor.
  - do 3 apply list_elem_of_further. apply elem_of_app. right.
    do 14 apply list_elem_of_further. apply list_elem_of_here.
Qed.

Lemma unreadable_map_ends_the_run_witness :
  let e := {| base_dir := "/srv/dashboard";
              data_file := Holds scenario;
              map_file := Unreadable IOError;
              metrics_file := Absent;
              shap_summary_bar_file := Absent;
              shap_beeswarm_file := Absent;
              shap_dep_transport_file := Absent;
              visitor := untouched |} in
  result (dashboard decimal_text exact_mean exact_median equal_width_bins
            decimal_float e) = Raised IOError.
Proof.
  intros e.
  apply (unreadable_map_ends_the_run decimal_text exact_mean exact_median
           equal_width_bins decimal_float e scenario scenario IOError); reflexivity.
Defined.


